(** * Thumbnail extractor: last-second frame selection, two backends

    A shallow embedding of [thumbnail_extractor.py] (the decode backend,
    class [ThumbnailExtractor]) and [thumbnail_extractor_ffmpeg.py] (the
    process backend, class [FFmpegThumbnailExtractor]).

    Conventions.
    - Python [str] is [string]; [str.lower] / [str.upper] act on ASCII letters.
    - A Python [float] is [pyfloat]: a finite value is an exact rational
      (every finite double is one), next to the two infinities and NaN.
      Arithmetic on finite values is exact; rounding of doubles is not
      modelled.
    - [pathlib] paths follow the POSIX flavour: a root and a list of
      components. Whether [glob] matches with regard to case, which
      depends on the flavour, is a field of the [World].
    - Everything outside the two files (file system, OpenCV, ffprobe and
      ffmpeg, [json.loads], [float(str)]) is an oracle in a [World].
    - Effects are a writer/error monad [M]: the trace of observable events
      and either a value or a raised exception.
    - Printed messages keep their wording; line breaks around them and the
      check and cross marks in front of result messages are left out.
    - The classes and entry points take [print], [Path.exists()] and the
      [cv2.VideoCapture] constructor to return normally. What the
      single-file operations do when one of them raises is the matter of
      the [Host] model ([DecodeIo], [ProcessIo]), which prints the result
      lines with their check mark.
    - Strings are byte strings; a slice counts bytes, which on ASCII text
      is what Python counts. *)

From Stdlib Require Import String Ascii List Bool Arith ZArith DecimalString.
From Stdlib Require Import QArith Qabs Qround Qminmax.
From Stdlib Require Import Lia Lqa Psatz Permutation Finite.
Import ListNotations.

Set Warnings "-register-all".

Local Open Scope string_scope.
Local Open Scope Z_scope.

(** ** Python strings *)

Module PyStr.

Definition is_upper (c : ascii) : bool :=
  (65 <=? nat_of_ascii c)%nat && (nat_of_ascii c <=? 90)%nat.

Definition is_lower (c : ascii) : bool :=
  (97 <=? nat_of_ascii c)%nat && (nat_of_ascii c <=? 122)%nat.

Definition lower_char (c : ascii) : ascii :=
  if is_upper c then ascii_of_nat (nat_of_ascii c + 32) else c.

Definition upper_char (c : ascii) : ascii :=
  if is_lower c then ascii_of_nat (nat_of_ascii c - 32) else c.

(** [s.lower()] *)
Fixpoint lower (s : string) : string :=
  match s with
  | EmptyString => EmptyString
  | String c r => String (lower_char c) (lower r)
  end.

(** [s.upper()] *)
Fixpoint upper (s : string) : string :=
  match s with
  | EmptyString => EmptyString
  | String c r => String (upper_char c) (upper r)
  end.

(** [s.endswith(suf)] *)
Fixpoint endswith (s suf : string) : bool :=
  if String.eqb s suf then true
  else match s with
       | EmptyString => false
       | String _ r => endswith r suf
       end.

(** [s.endswith((a, b, ...))] with a tuple of suffixes *)
Definition endswith_any (s : string) (sufs : list string) : bool :=
  existsb (endswith s) sufs.

(** [s.rfind(c)], [None] standing for [-1] *)
Fixpoint rfind (c : ascii) (s : string) : option nat :=
  match s with
  | EmptyString => None
  | String a r =>
      match rfind c r with
      | Some i => Some (S i)
      | None => if Ascii.eqb a c then Some O else None
      end
  end.

(** [s[i:]] and [s[:i]] for [0 <= i] *)
Fixpoint drop (i : nat) (s : string) : string :=
  match i, s with
  | O, _ => s
  | S j, String _ r => drop j r
  | S _, EmptyString => EmptyString
  end.

Fixpoint take (i : nat) (s : string) : string :=
  match i, s with
  | O, _ => EmptyString
  | S j, String a r => String a (take j r)
  | S _, EmptyString => EmptyString
  end.

(** [sub in s] for strings *)
Fixpoint contains (s sub : string) : bool :=
  if String.prefix sub s then true
  else match s with
       | EmptyString => false
       | String _ r => contains r sub
       end.

(** [sep.join(l)] *)
Fixpoint join (sep : string) (l : list string) : string :=
  match l with
  | [] => EmptyString
  | [x] => x
  | x :: r => x ++ sep ++ join sep r
  end.

(** [s.split("/")] *)
Fixpoint split_slash (s : string) : list string :=
  match s with
  | EmptyString => [EmptyString]
  | String c r =>
      if Ascii.eqb c "/" then EmptyString :: split_slash r
      else match split_slash r with
           | h :: t => String c h :: t
           | [] => [String c EmptyString]
           end
  end.

(** [x in l] for a list of strings *)
Definition mem (x : string) (l : list string) : bool :=
  existsb (String.eqb x) l.

End PyStr.

(** ** pathlib, POSIX flavour *)

Module PurePath.

Record t := mk { root : string; tail : list string }.

Definition starts_with_slash (s : string) : bool :=
  match s with
  | String c _ => Ascii.eqb c "/"
  | EmptyString => false
  end.

(** [posixpath.splitroot]: no root unless [s[:1]] is a slash; the root
    is [/] when [s[1:2]] is not a slash or [s[2:3]] is one, and [//]
    otherwise. *)
Definition parse_root (s : string) : string :=
  if negb (starts_with_slash s) then EmptyString
  else if negb (starts_with_slash (PyStr.drop 1 s))
          || starts_with_slash (PyStr.drop 2 s)
       then "/"
       else "//".

(** Components that survive parsing: empty ones and [.] are dropped,
    [..] is kept. *)
Definition keeps (c : string) : bool :=
  negb (String.eqb c EmptyString) && negb (String.eqb c ".").

Definition parse_tail (s : string) : list string :=
  filter keeps (PyStr.split_slash s).

(** [Path(s)] *)
Definition Path (s : string) : t :=
  mk (parse_root s) (parse_tail s).

(** [str(p)] *)
Definition str (p : t) : string :=
  match root p, tail p with
  | EmptyString, [] => "."
  | r, l => r ++ PyStr.join "/" l
  end.

(** [p.name] *)
Definition name (p : t) : string := last (tail p) EmptyString.

(** The position of the dot that starts the suffix:
    [i = name.rfind('.')] with [0 < i < len(name) - 1]. *)
Definition suffix_index (n : string) : option nat :=
  match PyStr.rfind "." n with
  | Some i =>
      if (0 <? i)%nat && (i <? String.length n - 1)%nat then Some i
      else None
  | None => None
  end.

(** [p.suffix] *)
Definition suffix (p : t) : string :=
  match suffix_index (name p) with
  | Some i => PyStr.drop i (name p)
  | None => EmptyString
  end.

(** [p.stem] *)
Definition stem (p : t) : string :=
  match suffix_index (name p) with
  | Some i => PyStr.take i (name p)
  | None => name p
  end.

(** [p / s]: an absolute right operand replaces the left one. *)
Definition joinpath (p : t) (s : string) : t :=
  let q := Path s in
  if String.eqb (root q) EmptyString then mk (root p) (tail p ++ tail q) else q.



End PurePath.

(** ** Python floats and the numeric operations the code applies to them *)

Inductive pyfloat :=
| Fin (q : Q)
| PInf
| NInf
| NaN.

(** ** Exceptions *)

Inductive exn :=
| CalledProcessError (stderr : string)
| FileNotFoundError
| PermissionError
| JSONDecodeError
| ValueError
| TypeError
| OverflowError
| KeyError
| CvError
| SystemExit (code : Z)
| KeyboardInterrupt.

(** [isinstance(e, Exception)]: [SystemExit] and [KeyboardInterrupt] derive
    from [BaseException] only. *)
Definition is_Exception (e : exn) : bool :=
  match e with
  | SystemExit _ | KeyboardInterrupt => false
  | _ => true
  end.

(** [str(e)], kept symbolic *)
Definition exn_str (e : exn) : string :=
  match e with
  | CalledProcessError _ => "CalledProcessError"
  | FileNotFoundError => "FileNotFoundError"
  | PermissionError => "PermissionError"
  | JSONDecodeError => "JSONDecodeError"
  | ValueError => "ValueError"
  | TypeError => "TypeError"
  | OverflowError => "OverflowError"
  | KeyError => "KeyError"
  | CvError => "cv2.error"
  | SystemExit _ => "SystemExit"
  | KeyboardInterrupt => "KeyboardInterrupt"
  end.

Inductive res (A : Type) :=
| Ret (a : A)
| Raise (e : exn).
Arguments Ret {A} a.
Arguments Raise {A} e.

Module PyFloat.

(** [x == 0] *)
Definition is_zero (x : pyfloat) : bool :=
  match x with
  | Fin q => Qeq_bool q 0
  | _ => false
  end.

(** [x <= 0] *)
Definition le_zero (x : pyfloat) : bool :=
  match x with
  | Fin q => Qle_bool q 0
  | NInf => true
  | PInf | NaN => false
  end.

(** [x > 0] *)
Definition gt_zero (x : pyfloat) : bool :=
  match x with
  | Fin q => negb (Qle_bool q 0)
  | PInf => true
  | NInf | NaN => false
  end.

(** Truncation of a rational toward zero. *)
Definition trunc (q : Q) : Z := Z.quot (Qnum q) (Zpos (Qden q)).

(** [int(x)]: truncation toward zero; NaN and the infinities raise. *)
Definition to_int (x : pyfloat) : res Z :=
  match x with
  | Fin q => Ret (trunc q)
  | PInf | NInf => Raise OverflowError
  | NaN => Raise ValueError
  end.

(** [x - 1.0] *)
Definition sub_one (x : pyfloat) : pyfloat :=
  match x with
  | Fin q => Fin (q - 1)
  | other => other
  end.

(** [max(0, x)]: the built-in keeps its first argument unless the second
    compares greater, so NaN gives 0. *)
Definition max_zero (x : pyfloat) : pyfloat :=
  if gt_zero x then x else Fin 0.

End PyFloat.

(** ** JSON values as [json.loads] returns them *)

Inductive json :=
| JNull
| JBool (b : bool)
| JNum (x : pyfloat)
| JStr (s : string)
| JArr (l : list json)
| JObj (kv : list (string * json)).

Module PyJson.

Fixpoint lookup (k : string) (kv : list (string * json)) : option json :=
  match kv with
  | [] => None
  | (k', v) :: r =>
      match lookup k r with        (* a repeated key keeps its last value *)
      | Some v' => Some v'
      | None => if String.eqb k k' then Some v else None
      end
  end.

Definition is_str (k : string) (v : json) : bool :=
  match v with
  | JStr s => String.eqb k s
  | _ => false
  end.

(** [k in data] *)
Definition contains (k : string) (data : json) : res bool :=
  match data with
  | JObj kv => Ret (match lookup k kv with Some _ => true | None => false end)
  | JArr l => Ret (existsb (is_str k) l)
  | JStr s => Ret (PyStr.contains s k)
  | JNull | JBool _ | JNum _ => Raise TypeError
  end.

(** [data[k]] with a string key *)
Definition getitem (data : json) (k : string) : res json :=
  match data with
  | JObj kv => match lookup k kv with Some v => Ret v | None => Raise KeyError end
  | _ => Raise TypeError
  end.

End PyJson.

(** ** Observable events *)

(** One argument of a command line; [str()] of a number stays symbolic. *)
Inductive arg :=
| AStr (s : string)
| AFloat (x : pyfloat)
| AInt (n : Z).

Inductive imwrite_param :=
| PNG_COMPRESSION (level : Z)
| JPEG_QUALITY (q : Z).

Inductive frame := Frame (id : nat).

Inductive event :=
| EvPrint (msg : string)
| EvMkdir (path : string)
| EvVideoCapture (path : string) (opened : bool)
| EvSeek (pos : Z)
| EvRead
| EvImwrite (path : string) (p : imwrite_param)
| EvRelease
| EvSpawnFailed (cmd : list arg)
| EvSpawn (cmd : list arg)
| EvExit (cmd : list arg) (returncode : Z).

(** Events that touch a backend: the capture handle, the image writer or
    an external process. *)
Definition is_backend_event (e : event) : bool :=
  match e with
  | EvPrint _ | EvMkdir _ => false
  | _ => true
  end.

(** ** The effect monad *)

Definition M (A : Type) : Type := (list event * res A)%type.

Definition ret {A} (a : A) : M A := ([], Ret a).

Definition raise {A} (e : exn) : M A := ([], Raise e).

Definition lift {A} (r : res A) : M A := ([], r).

Definition tell (e : event) : M unit := ([e], Ret tt).

Definition print (msg : string) : M unit := tell (EvPrint msg).

Definition bind {A B} (m : M A) (k : A -> M B) : M B :=
  match m with
  | (t, Ret a) => let (t', r) := k a in ((t ++ t')%list, r)
  | (t, Raise e) => (t, Raise e)
  end.

Notation "x <- m ;; k" := (bind m (fun x => k))
  (at level 61, m at next level, right associativity).
Notation "m ;; k" := (bind m (fun _ => k))
  (at level 61, right associativity).

(** [try: body / except ...: handler]; [handler e = None] when no clause
    matches [e]. *)
Definition try_except {A} (body : M A) (handler : exn -> option (M A)) : M A :=
  match body with
  | (t, Ret a) => (t, Ret a)
  | (t, Raise e) =>
      match handler e with
      | Some h => let (t', r) := h in ((t ++ t')%list, r)
      | None => (t, Raise e)
      end
  end.

(** [try: body / finally: fin] *)
Definition try_finally {A} (body : M A) (fin : M unit) : M A :=
  let (t, r) := body in
  let (t', r') := fin in
  ((t ++ t')%list, match r' with Ret _ => r | Raise e => Raise e end).

Definition trace {A} (m : M A) : list event := fst m.
Definition outcome {A} (m : M A) : res A := snd m.

(** ** The world outside the two files *)

Inductive proc_outcome :=
| SpawnError (e : exn)
| Completed (returncode : Z) (stdout stderr : string).

(** An opened [cv2.VideoCapture]. *)
Record Capture := {
  cap_fps : pyfloat;                       (* CAP_PROP_FPS *)
  cap_frame_count : pyfloat;               (* CAP_PROP_FRAME_COUNT *)
  cap_read : Z -> res (option frame)       (* read() after seeking there *)
}.

Record World := {
  path_exists : string -> bool;
  path_is_dir : string -> bool;
  cwd : string;
  (** names of the entries of a directory, in enumeration order *)
  listdir : string -> list string;
  (** pathlib matches glob patterns ignoring case on the Windows flavour *)
  glob_ignorecase : bool;
  (** [cv2.VideoCapture(path)]: [None] when [isOpened()] is false *)
  cv_open : string -> option Capture;
  cv_imwrite : string -> frame -> imwrite_param -> res bool;
  run_process : list arg -> proc_outcome;
  (** [Path.exists()] once the given command has run *)
  exists_after_run : list arg -> string -> bool;
  (** [json.loads]: [None] when it raises [JSONDecodeError] *)
  json_loads : string -> option json;
  (** [float(s)] on a string: [None] when it raises [ValueError] *)
  float_of_str : string -> option pyfloat
}.

Definition SUPPORTED_FORMATS : list string :=
  [".mp4"; ".avi"; ".mov"; ".mkv"; ".flv"; ".wmv"; ".webm"].

Definition string_of_nat (n : nat) : string :=
  DecimalString.NilZero.string_of_uint (Nat.to_uint n).

(** ** Folder processing

    [process_folder] has the same body in both classes; it is written once
    here over the single-file operation of the class and instantiated in
    each module below. *)

Module Folder.
Section Folder.

Variable w : World.
Variable output_folder : PurePath.t.
Variable extract_thumbnail : PurePath.t -> M bool.

(** [fnmatch] of a name against the pattern [*<ext>] *)
Definition matches_star (ext name : string) : bool :=
  if glob_ignorecase w
  then PyStr.endswith (PyStr.lower name) (PyStr.lower ext)
  else PyStr.endswith name ext.

(** [folder_path.glob("*" + ext)] *)
Definition glob (folder_path : PurePath.t) (ext : string) : list PurePath.t :=
  map (fun n => PurePath.mk (PurePath.root folder_path)
                            (PurePath.tail folder_path ++ [n]))
      (filter (matches_star ext) (listdir w (PurePath.str folder_path))).

(** The enumeration loop over [SUPPORTED_FORMATS]. *)
Definition find_video_files (folder_path : PurePath.t) : list PurePath.t :=
  flat_map (fun ext => (glob folder_path ext
                       ++ glob folder_path (PyStr.upper ext))%list)
           SUPPORTED_FORMATS.

(** [p.absolute()] *)
Definition absolute (p : PurePath.t) : PurePath.t :=
  PurePath.joinpath (PurePath.Path (cwd w)) (PurePath.str p).

(** The [for video_file in video_files] loop with its two counters. *)
Fixpoint process_loop (video_files : list PurePath.t) (successful failed : Z)
  : M (Z * Z) :=
  match video_files with
  | [] => ret (successful, failed)
  | video_file :: rest =>
      print ("Processing: " ++ PurePath.name video_file) ;;
      ok <- extract_thumbnail video_file ;;
      if ok then process_loop rest (successful + 1) failed
      else process_loop rest successful (failed + 1)
  end.

Definition process_folder (folder_path : PurePath.t) : M (Z * Z) :=
  if negb (path_exists w (PurePath.str folder_path)) then
    print ("Error: Folder not found: " ++ PurePath.str folder_path) ;;
    ret (0, 0)
  else if negb (path_is_dir w (PurePath.str folder_path)) then
    print ("Error: Path is not a directory: " ++ PurePath.str folder_path) ;;
    ret (0, 0)
  else
    let video_files := find_video_files folder_path in
    match video_files with
    | [] =>
        print ("No video files found in " ++ PurePath.str folder_path) ;;
        ret (0, 0)
    | _ =>
        print ("Found " ++ string_of_nat (length video_files)
               ++ " video file(s)") ;;
        print ("Output folder: "
               ++ PurePath.str (absolute output_folder)) ;;
        process_loop video_files 0 0
    end.

End Folder.
End Folder.

(** ** The decode backend: class [ThumbnailExtractor] *)

Module ThumbnailExtractor.

Record t := {
  output_folder : PurePath.t;
  image_format : string;
  file_extension : string
}.

(** [__init__] *)
Definition init (output_folder image_format : string) : M t :=
  let folder := PurePath.Path output_folder in
  tell (EvMkdir (PurePath.str folder)) ;;
  let fmt := PyStr.lower image_format in
  if negb (PyStr.mem fmt ["jpeg"; "png"]) then raise ValueError
  else ret {| output_folder := folder;
              image_format := fmt;
              file_extension := if String.eqb fmt "jpeg" then "jpg" else "png" |}.

(** The frame one second before the end: [max(0, total_frames - int(fps))]. *)
Definition target_frame (total_frames int_fps : Z) : Z :=
  Z.max 0 (total_frames - int_fps).

(** The name under which the thumbnail is saved. *)
Definition output_file_name (self : t) (video_path : PurePath.t)
           (output_name : option string) : string :=
  match output_name with
  | None => PurePath.stem video_path ++ "_thumbnail." ++ file_extension self
  | Some n =>
      if negb (PyStr.endswith_any n [".jpg"; ".jpeg"; ".png"])
      then n ++ "." ++ file_extension self
      else n
  end.

Section Decode.

Variable w : World.

Definition VideoCapture (path : string) : M (option Capture) :=
  let cap := cv_open w path in
  tell (EvVideoCapture path (match cap with Some _ => true | None => false end)) ;;
  ret cap.

Definition imwrite (path : string) (f : frame) (p : imwrite_param) : M bool :=
  tell (EvImwrite path p) ;;
  lift (cv_imwrite w path f p).

(** The body of the [try] block. *)
Definition extract_body (self : t) (video_path : PurePath.t)
           (output_name : option string) (cap : Capture) : M bool :=
  let fps := cap_fps cap in
  total_frames <- lift (PyFloat.to_int (cap_frame_count cap)) ;;
  if (total_frames =? 0) || PyFloat.is_zero fps then
    print ("Error: Invalid video properties for " ++ PurePath.name video_path) ;;
    ret false
  else
    int_fps <- lift (PyFloat.to_int fps) ;;
    let target := target_frame total_frames int_fps in
    tell (EvSeek target) ;;
    tell EvRead ;;
    got <- lift (cap_read cap target) ;;
    match got with
    | None =>
        print ("Error: Could not read frame from " ++ PurePath.name video_path) ;;
        ret false
    | Some frame =>
        let output_name := output_file_name self video_path output_name in
        let output_path := PurePath.joinpath (output_folder self) output_name in
        (if String.eqb (image_format self) "png"
         then imwrite (PurePath.str output_path) frame (PNG_COMPRESSION 9)
         else imwrite (PurePath.str output_path) frame (JPEG_QUALITY 95)) ;;
        print ("Saved thumbnail: " ++ PurePath.str output_path) ;;
        ret true
    end.

Definition extract_thumbnail (self : t) (video_path : PurePath.t)
           (output_name : option string) : M bool :=
  if negb (path_exists w (PurePath.str video_path)) then
    print ("Error: Video file not found: " ++ PurePath.str video_path) ;;
    ret false
  else if negb (PyStr.mem (PyStr.lower (PurePath.suffix video_path))
                          SUPPORTED_FORMATS) then
    print ("Warning: Unsupported format for " ++ PurePath.name video_path) ;;
    ret false
  else
    cap <- VideoCapture (PurePath.str video_path) ;;
    match cap with
    | None =>
        print ("Error: Could not open video: " ++ PurePath.str video_path) ;;
        ret false
    | Some cap =>
        try_finally
          (try_except
             (extract_body self video_path output_name cap)
             (fun e =>
                if is_Exception e then
                  Some (print ("Error processing " ++ PurePath.name video_path
                               ++ ": " ++ exn_str e) ;;
                        ret false)
                else None))
          (tell EvRelease)
    end.

(** The call the folder loop makes: [self.extract_thumbnail(video_file)]. *)
Definition extract_one (self : t) (video_file : PurePath.t) : M bool :=
  extract_thumbnail self video_file None.

Definition process_folder (self : t) (folder_path : PurePath.t) : M (Z * Z) :=
  Folder.process_folder w (output_folder self) (extract_one self) folder_path.

End Decode.
End ThumbnailExtractor.

(** ** The process backend: class [FFmpegThumbnailExtractor] *)

Module FFmpegThumbnailExtractor.

Record t := { output_folder : PurePath.t }.

(** The seek position: [max(0, duration - 1.0)]. *)
Definition timestamp (duration : pyfloat) : pyfloat :=
  PyFloat.max_zero (PyFloat.sub_one duration).

Definition output_file_name (video_path : PurePath.t)
           (output_name : option string) : string :=
  match output_name with
  | None => PurePath.stem video_path ++ "_thumbnail.jpg"
  | Some n =>
      if negb (PyStr.endswith_any n [".jpg"; ".png"])
      then n ++ ".jpg"
      else n
  end.

Definition ffprobe_cmd (video_path : PurePath.t) : list arg :=
  [AStr "ffprobe"; AStr "-v"; AStr "error";
   AStr "-show_entries"; AStr "format=duration";
   AStr "-of"; AStr "json"; AStr (PurePath.str video_path)].

Definition ffmpeg_cmd (ts : pyfloat) (video_path : PurePath.t)
           (quality : Z) (output_path : PurePath.t) : list arg :=
  [AStr "ffmpeg";
   AStr "-ss"; AFloat ts;
   AStr "-i"; AStr (PurePath.str video_path);
   AStr "-vframes"; AStr "1";
   AStr "-q:v"; AInt quality;
   AStr "-y";
   AStr (PurePath.str output_path)].

Section Process.

Variable w : World.

(** [subprocess.run(cmd, capture_output=True, check=True)]: the child is
    waited for before the call returns or raises. *)
Definition subprocess_run (cmd : list arg) : M (string * string) :=
  match run_process w cmd with
  | SpawnError e => tell (EvSpawnFailed cmd) ;; raise e
  | Completed rc out err =>
      tell (EvSpawn cmd) ;;
      tell (EvExit cmd rc) ;;
      if rc =? 0 then ret (out, err) else raise (CalledProcessError err)
  end.

(** [_check_ffmpeg] *)
Definition check_ffmpeg : M unit :=
  try_except
    (subprocess_run [AStr "ffmpeg"; AStr "-version"] ;; ret tt)
    (fun e =>
       match e with
       | CalledProcessError _ | FileNotFoundError =>
           Some (print "Error: FFmpeg is not installed or not in PATH" ;;
                 print "Please install FFmpeg:" ;;
                 print "  Ubuntu/Debian: sudo apt-get install ffmpeg" ;;
                 print "  macOS: brew install ffmpeg" ;;
                 print "  Windows: Download from https://ffmpeg.org/download.html" ;;
                 raise (SystemExit 1))
       | _ => None
       end).

(** [__init__] *)
Definition init (output_folder : string) : M t :=
  let folder := PurePath.Path output_folder in
  tell (EvMkdir (PurePath.str folder)) ;;
  check_ffmpeg ;;
  ret {| output_folder := folder |}.

(** [float(v)] on a decoded JSON value *)
Definition py_float (v : json) : res pyfloat :=
  match v with
  | JNum x => Ret x
  | JBool b => Ret (Fin (if b then 1 else 0)%Q)
  | JStr s =>
      match float_of_str w s with
      | Some x => Ret x
      | None => Raise ValueError
      end
  | JNull | JArr _ | JObj _ => Raise TypeError
  end.

Definition get_video_duration (video_path : PurePath.t) : M (option pyfloat) :=
  try_except
    (result <- subprocess_run (ffprobe_cmd video_path) ;;
     data <- lift (match json_loads w (fst result) with
                   | Some d => Ret d
                   | None => Raise JSONDecodeError
                   end) ;;
     has_format <- lift (PyJson.contains "format" data) ;;
     if has_format then
       fmt <- lift (PyJson.getitem data "format") ;;
       has_duration <- lift (PyJson.contains "duration" fmt) ;;
       if has_duration then
         d <- lift (PyJson.getitem fmt "duration") ;;
         x <- lift (py_float d) ;;
         ret (Some x)
       else ret None
     else ret None)
    (fun e =>
       match e with
       | CalledProcessError _ | JSONDecodeError | ValueError =>
           Some (print ("Error getting video duration: " ++ exn_str e) ;;
                 ret None)
       | _ => None
       end).

Definition extract_thumbnail (self : t) (video_path : PurePath.t)
           (output_name : option string) (quality : Z) : M bool :=
  if negb (path_exists w (PurePath.str video_path)) then
    print ("Error: Video file not found: " ++ PurePath.str video_path) ;;
    ret false
  else if negb (PyStr.mem (PyStr.lower (PurePath.suffix video_path))
                          SUPPORTED_FORMATS) then
    print ("Warning: Unsupported format for " ++ PurePath.name video_path) ;;
    ret false
  else
    duration <- get_video_duration video_path ;;
    match duration with
    | None =>
        print ("Error: Could not determine video duration for "
               ++ PurePath.name video_path) ;;
        ret false
    | Some duration =>
        if PyFloat.le_zero duration then
          print ("Error: Could not determine video duration for "
                 ++ PurePath.name video_path) ;;
          ret false
        else
          let ts := timestamp duration in
          let output_name := output_file_name video_path output_name in
          let output_path := PurePath.joinpath (output_folder self) output_name in
          let cmd := ffmpeg_cmd ts video_path quality output_path in
          try_except
            (subprocess_run cmd ;;
             if exists_after_run w cmd (PurePath.str output_path) then
               print ("Saved thumbnail: " ++ PurePath.str output_path) ;;
               ret true
             else
               print ("Error: Thumbnail file was not created for "
                      ++ PurePath.name video_path) ;;
               ret false)
            (fun e =>
               match e with
               | CalledProcessError stderr =>
                   Some (print ("Error processing " ++ PurePath.name video_path
                                ++ ": FFmpeg failed") ;;
                         (if String.eqb stderr EmptyString then ret tt
                          else print ("  Details: " ++ PyStr.take 200 stderr)) ;;
                         ret false)
               | _ =>
                   if is_Exception e then
                     Some (print ("Error processing " ++ PurePath.name video_path
                                  ++ ": " ++ exn_str e) ;;
                           ret false)
                   else None
               end)
    end.

(** The call the folder loop makes: [self.extract_thumbnail(video_file)],
    with the default [quality=2]. *)
Definition extract_one (self : t) (video_file : PurePath.t) : M bool :=
  extract_thumbnail self video_file None 2.

Definition process_folder (self : t) (folder_path : PurePath.t) : M (Z * Z) :=
  Folder.process_folder w (output_folder self) (extract_one self) folder_path.

End Process.
End FFmpegThumbnailExtractor.

(** ** Observers on traces *)


(** Image files handed to the OpenCV writer. *)
Definition imwrites (t : list event) : list string :=
  flat_map (fun e => match e with EvImwrite p _ => [p] | _ => [] end) t.

(** Command lines handed to [subprocess.run], whether or not a child started. *)
Definition commands (t : list event) : list (list arg) :=
  flat_map (fun e => match e with
                     | EvSpawn c | EvSpawnFailed c => [c]
                     | _ => []
                     end) t.

Definition no_backend_event (t : list event) : bool :=
  forallb (fun e => negb (is_backend_event e)) t.

(** Capture handles and child processes still held after the trace, starting
    from [caps] open handles and [procs] running children. *)
Fixpoint live (caps procs : nat) (t : list event) : nat * nat :=
  match t with
  | [] => (caps, procs)
  | EvVideoCapture _ true :: r => live (S caps) procs r
  | EvRelease :: r => live (Nat.pred caps) procs r
  | EvSpawn _ :: r => live caps (S procs) r
  | EvExit _ _ :: r => live caps (Nat.pred procs) r
  | _ :: r => live caps procs r
  end.

Definition all_released (t : list event) : bool :=
  match live 0 0 t with
  | (O, O) => true
  | _ => false
  end.

(** The fourteen patterns of the enumeration, in the order they are tried. *)
Definition glob_endings : list string :=
  flat_map (fun ext => [ext; PyStr.upper ext]) SUPPORTED_FORMATS.

(** Whether a single-file operation came back with [True], with [False]. *)
Definition succeeded (extract : PurePath.t -> M bool) (p : PurePath.t) : bool :=
  match outcome (extract p) with
  | Ret true => true
  | _ => false
  end.

Definition failed (extract : PurePath.t -> M bool) (p : PurePath.t) : bool :=
  match outcome (extract p) with
  | Ret false => true
  | _ => false
  end.

(** What the folder loop does for one file: announce it, extract from it. *)
Definition one_file (extract : PurePath.t -> M bool) (p : PurePath.t)
  : list event :=
  EvPrint ("Processing: " ++ PurePath.name p) :: trace (extract p).

(** The output path an ffmpeg command line names: its last argument. *)
Definition cmd_output (cmd : list arg) : option string :=
  match last cmd (AInt 0) with
  | AStr s => Some s
  | _ => None
  end.

(** The program a command line starts. *)
Definition is_program (prog : string) (cmd : list arg) : bool :=
  match cmd with
  | AStr s :: _ => String.eqb s prog
  | _ => false
  end.

(** Image files written by ffmpeg runs that exited with status 0. *)
Definition ffmpeg_outputs (t : list event) : list string :=
  flat_map (fun e => match e with
                     | EvExit cmd rc =>
                         if is_program "ffmpeg" cmd && (rc =? 0)
                         then match cmd_output cmd with
                              | Some o => [o]
                              | None => []
                              end
                         else []
                     | _ => []
                     end) t.

(** The [-ss] position of an ffmpeg command line: the argument that
    follows [-ss] right after the program name and comes before the input
    option [-i]. *)
Definition cmd_seek (cmd : list arg) : option pyfloat :=
  match cmd with
  | AStr prog :: AStr opt :: AFloat ts :: AStr next :: _ =>
      if String.eqb prog "ffmpeg" && String.eqb opt "-ss" && String.eqb next "-i"
      then Some ts else None
  | _ => None
  end.

(** The [-i] argument of an ffmpeg command line. *)
Definition cmd_input (cmd : list arg) : option string :=
  match cmd with
  | _ :: _ :: _ :: AStr opt :: AStr path :: _ =>
      if String.eqb opt "-i" then Some path else None
  | _ => None
  end.

(** Whether a command line names the given path among its arguments. *)
Definition cmd_mentions (path : string) (cmd : list arg) : bool :=
  existsb (fun a => match a with
                    | AStr s => String.eqb s path
                    | _ => false
                    end) cmd.





(** The single-file operation comes back with a boolean on this path. *)
Definition returns_bool (extract : PurePath.t -> M bool) (p : PurePath.t) : Prop :=
  exists b, outcome (extract p) = Ret b.

(** The test on the extension both [extract_thumbnail] methods apply. *)
Definition is_supported (video_path : PurePath.t) : bool :=
  PyStr.mem (PyStr.lower (PurePath.suffix video_path)) SUPPORTED_FORMATS.

(** ** The frame target as the specification words it

    The specification gives the decode target as
    [max(0, total_frames - round(frame_rate))]; [round] is Python's,
    to the nearest integer with ties to the even one. *)



(** ** The command-line entry points

    [main] of each file, from the point where [parser.parse_args()] has
    returned. [argparse] has by then checked the declared [choices]:
    the format is [jpeg] or [png], the quality an integer from 1 to 31.
    [Path.is_file] is one more oracle, next to those of the [World]. *)

(** [s * n] *)
Fixpoint repeat_str (s : string) (n : nat) : string :=
  match n with
  | O => EmptyString
  | S k => s ++ repeat_str s k
  end.

(** [str(n)] of a counter, which is never negative *)
Definition str_of_count (n : Z) : string := string_of_nat (Z.to_nat n).

Module DecodeCli.

(** The namespace [parse_args] returns in thumbnail_extractor.py. *)
Record Args := {
  input : string;
  output : string;        (* -o/--output, default 'thumbnails' *)
  format : string         (* -f/--format, default 'jpeg' *)
}.

Section Main.

Variable w : World.
Variable path_is_file : string -> bool.

Definition main (args : Args) : M unit :=
  let input_path := PurePath.Path (input args) in
  if negb (path_exists w (PurePath.str input_path)) then
    print ("Error: Path not found: " ++ PurePath.str input_path) ;;
    raise (SystemExit 1)
  else
    extractor <- ThumbnailExtractor.init (output args) (format args) ;;
    print (repeat_str "=" 60) ;;
    print "Video Thumbnail Extractor" ;;
    print (repeat_str "=" 60) ;;
    if path_is_file (PurePath.str input_path) then
      print ("Processing single video: " ++ PurePath.name input_path) ;;
      print ("Output folder: "
             ++ PurePath.str
                  (Folder.absolute w (ThumbnailExtractor.output_folder extractor))) ;;
      ok <- ThumbnailExtractor.extract_thumbnail w extractor input_path None ;;
      if ok then
        print "Thumbnail extraction completed successfully!"
      else
        print "Thumbnail extraction failed!" ;;
        raise (SystemExit 1)
    else if path_is_dir w (PurePath.str input_path) then
      summary <- ThumbnailExtractor.process_folder w extractor input_path ;;
      let (successful, failed) := summary in
      print (repeat_str "=" 60) ;;
      print ("Summary: " ++ str_of_count successful ++ " successful, "
             ++ str_of_count failed ++ " failed") ;;
      print (repeat_str "=" 60) ;;
      if 0 <? failed then raise (SystemExit 1) else ret tt
    else
      print ("Error: Invalid path: " ++ PurePath.str input_path) ;;
      raise (SystemExit 1).

End Main.
End DecodeCli.

Module ProcessCli.

(** The namespace [parse_args] returns in thumbnail_extractor_ffmpeg.py. *)
Record Args := {
  input : string;
  output : string;        (* -o/--output, default 'thumbnails' *)
  quality : Z             (* -q/--quality, default 2 *)
}.

Section Main.

Variable w : World.
Variable path_is_file : string -> bool.

Definition main (args : Args) : M unit :=
  let input_path := PurePath.Path (input args) in
  if negb (path_exists w (PurePath.str input_path)) then
    print ("Error: Path not found: " ++ PurePath.str input_path) ;;
    raise (SystemExit 1)
  else
    extractor <- FFmpegThumbnailExtractor.init w (output args) ;;
    print (repeat_str "=" 60) ;;
    print "FFmpeg Video Thumbnail Extractor (Optimized)" ;;
    print (repeat_str "=" 60) ;;
    if path_is_file (PurePath.str input_path) then
      print ("Processing single video: " ++ PurePath.name input_path) ;;
      print ("Output folder: "
             ++ PurePath.str
                  (Folder.absolute w
                     (FFmpegThumbnailExtractor.output_folder extractor))) ;;
      ok <- FFmpegThumbnailExtractor.extract_thumbnail
              w extractor input_path None (quality args) ;;
      if ok then
        print "Thumbnail extraction completed successfully!"
      else
        print "Thumbnail extraction failed!" ;;
        raise (SystemExit 1)
    else if path_is_dir w (PurePath.str input_path) then
      summary <- FFmpegThumbnailExtractor.process_folder w extractor input_path ;;
      let (successful, failed) := summary in
      print (repeat_str "=" 60) ;;
      print ("Summary: " ++ str_of_count successful ++ " successful, "
             ++ str_of_count failed ++ " failed") ;;
      print (repeat_str "=" 60) ;;
      if 0 <? failed then raise (SystemExit 1) else ret tt
    else
      print ("Error: Invalid path: " ++ PurePath.str input_path) ;;
      raise (SystemExit 1).

End Main.
End ProcessCli.

(** ** A host whose console and file system can fail

    The operations above take [print], [Path.exists()] and the
    [cv2.VideoCapture] constructor to return normally. The two
    [extract_thumbnail] methods and [get_video_duration] are written once
    more here over a [Host] on which each of the three may raise, with
    the messages as the source prints them, the check mark of the success
    line included. *)

Record Host := {
  world : World;
  (** what [print(msg)] raises, if anything; a [UnicodeEncodeError] is a
      [ValueError] *)
  print_error : string -> option exn;
  (** what [Path(p).exists()] raises, if anything *)
  exists_error : string -> option exn;
  (** what [cv2.VideoCapture(p)] raises, if anything *)
  open_error : string -> option exn
}.

(** U+2713, as the three bytes of its UTF-8 form *)
Definition check_mark : string :=
  String "226" (String "156" (String "147" EmptyString)).

Module Io.
Section Io.

Variable h : Host.

Definition print (msg : string) : M unit :=
  match print_error h msg with
  | Some e => raise e
  | None => tell (EvPrint msg)
  end.

(** [p.exists()] *)
Definition Path_exists (p : PurePath.t) : M bool :=
  match exists_error h (PurePath.str p) with
  | Some e => raise e
  | None => ret (path_exists (world h) (PurePath.str p))
  end.

(** [p.exists()] once [cmd] has run *)
Definition Path_exists_after (cmd : list arg) (p : PurePath.t) : M bool :=
  match exists_error h (PurePath.str p) with
  | Some e => raise e
  | None => ret (exists_after_run (world h) cmd (PurePath.str p))
  end.

Definition VideoCapture (path : string) : M (option Capture) :=
  match open_error h path with
  | Some e => raise e
  | None => ThumbnailExtractor.VideoCapture (world h) path
  end.

End Io.
End Io.

(** [ThumbnailExtractor.extract_thumbnail] on a host *)
Module DecodeIo.
Section Decode.

Variable h : Host.

(** The body of the [try] block. *)
Definition extract_body (self : ThumbnailExtractor.t) (video_path : PurePath.t)
           (output_name : option string) (cap : Capture) : M bool :=
  let fps := cap_fps cap in
  total_frames <- lift (PyFloat.to_int (cap_frame_count cap)) ;;
  if (total_frames =? 0) || PyFloat.is_zero fps then
    Io.print h ("Error: Invalid video properties for "
                ++ PurePath.name video_path) ;;
    ret false
  else
    int_fps <- lift (PyFloat.to_int fps) ;;
    let target := ThumbnailExtractor.target_frame total_frames int_fps in
    tell (EvSeek target) ;;
    tell EvRead ;;
    got <- lift (cap_read cap target) ;;
    match got with
    | None =>
        Io.print h ("Error: Could not read frame from "
                    ++ PurePath.name video_path) ;;
        ret false
    | Some frame =>
        let output_name :=
          ThumbnailExtractor.output_file_name self video_path output_name in
        let output_path :=
          PurePath.joinpath (ThumbnailExtractor.output_folder self) output_name in
        (if String.eqb (ThumbnailExtractor.image_format self) "png"
         then ThumbnailExtractor.imwrite (world h) (PurePath.str output_path)
                frame (PNG_COMPRESSION 9)
         else ThumbnailExtractor.imwrite (world h) (PurePath.str output_path)
                frame (JPEG_QUALITY 95)) ;;
        Io.print h (check_mark ++ " Saved thumbnail: "
                    ++ PurePath.str output_path) ;;
        ret true
    end.

Definition extract_thumbnail (self : ThumbnailExtractor.t)
           (video_path : PurePath.t) (output_name : option string) : M bool :=
  found <- Io.Path_exists h video_path ;;
  if negb found then
    Io.print h ("Error: Video file not found: " ++ PurePath.str video_path) ;;
    ret false
  else if negb (PyStr.mem (PyStr.lower (PurePath.suffix video_path))
                          SUPPORTED_FORMATS) then
    Io.print h ("Warning: Unsupported format for "
                ++ PurePath.name video_path) ;;
    ret false
  else
    cap <- Io.VideoCapture h (PurePath.str video_path) ;;
    match cap with
    | None =>
        Io.print h ("Error: Could not open video: "
                    ++ PurePath.str video_path) ;;
        ret false
    | Some cap =>
        try_finally
          (try_except
             (extract_body self video_path output_name cap)
             (fun e =>
                if is_Exception e then
                  Some (Io.print h ("Error processing "
                                    ++ PurePath.name video_path
                                    ++ ": " ++ exn_str e) ;;
                        ret false)
                else None))
          (tell EvRelease)
    end.

End Decode.
End DecodeIo.

(** [FFmpegThumbnailExtractor.get_video_duration] and [extract_thumbnail]
    on a host *)
Module ProcessIo.
Section Process.

Variable h : Host.

Definition get_video_duration (video_path : PurePath.t) : M (option pyfloat) :=
  try_except
    (result <- FFmpegThumbnailExtractor.subprocess_run (world h)
                 (FFmpegThumbnailExtractor.ffprobe_cmd video_path) ;;
     data <- lift (match json_loads (world h) (fst result) with
                   | Some d => Ret d
                   | None => Raise JSONDecodeError
                   end) ;;
     has_format <- lift (PyJson.contains "format" data) ;;
     if has_format then
       fmt <- lift (PyJson.getitem data "format") ;;
       has_duration <- lift (PyJson.contains "duration" fmt) ;;
       if has_duration then
         d <- lift (PyJson.getitem fmt "duration") ;;
         x <- lift (FFmpegThumbnailExtractor.py_float (world h) d) ;;
         ret (Some x)
       else ret None
     else ret None)
    (fun e =>
       match e with
       | CalledProcessError _ | JSONDecodeError | ValueError =>
           Some (Io.print h ("Error getting video duration: " ++ exn_str e) ;;
                 ret None)
       | _ => None
       end).

Definition extract_thumbnail (self : FFmpegThumbnailExtractor.t)
           (video_path : PurePath.t) (output_name : option string)
           (quality : Z) : M bool :=
  found <- Io.Path_exists h video_path ;;
  if negb found then
    Io.print h ("Error: Video file not found: " ++ PurePath.str video_path) ;;
    ret false
  else if negb (PyStr.mem (PyStr.lower (PurePath.suffix video_path))
                          SUPPORTED_FORMATS) then
    Io.print h ("Warning: Unsupported format for "
                ++ PurePath.name video_path) ;;
    ret false
  else
    duration <- get_video_duration video_path ;;
    match duration with
    | None =>
        Io.print h ("Error: Could not determine video duration for "
                    ++ PurePath.name video_path) ;;
        ret false
    | Some duration =>
        if PyFloat.le_zero duration then
          Io.print h ("Error: Could not determine video duration for "
                      ++ PurePath.name video_path) ;;
          ret false
        else
          let ts := FFmpegThumbnailExtractor.timestamp duration in
          let output_name :=
            FFmpegThumbnailExtractor.output_file_name video_path output_name in
          let output_path :=
            PurePath.joinpath (FFmpegThumbnailExtractor.output_folder self)
              output_name in
          let cmd := FFmpegThumbnailExtractor.ffmpeg_cmd
                       ts video_path quality output_path in
          try_except
            (FFmpegThumbnailExtractor.subprocess_run (world h) cmd ;;
             created <- Io.Path_exists_after h cmd output_path ;;
             if created then
               Io.print h (check_mark ++ " Saved thumbnail: "
                           ++ PurePath.str output_path) ;;
               ret true
             else
               Io.print h ("Error: Thumbnail file was not created for "
                           ++ PurePath.name video_path) ;;
               ret false)
            (fun e =>
               match e with
               | CalledProcessError stderr =>
                   Some (Io.print h ("Error processing "
                                     ++ PurePath.name video_path
                                     ++ ": FFmpeg failed") ;;
                         (if String.eqb stderr EmptyString then ret tt
                          else Io.print h ("  Details: "
                                           ++ PyStr.take 200 stderr)) ;;
                         ret false)
               | _ =>
                   if is_Exception e then
                     Some (Io.print h ("Error processing "
                                       ++ PurePath.name video_path
                                       ++ ": " ++ exn_str e) ;;
                           ret false)
                   else None
               end)
    end.

End Process.
End ProcessIo.

(** A host that never fails. *)
Definition steady (w : World) : Host :=
  {| world := w;
     print_error := fun _ => None;
     exists_error := fun _ => None;
     open_error := fun _ => None |}.

(** ** More observers *)

(** The backend events of a trace, prints and directory creation left out. *)
Definition backend_events (t : list event) : list event :=
  filter is_backend_event t.

(** Directories created. *)
Definition mkdirs (t : list event) : list string :=
  flat_map (fun e => match e with EvMkdir p => [p] | _ => [] end) t.

(** The [-q:v] argument of an ffmpeg command line. *)
Definition cmd_quality (cmd : list arg) : option Z :=
  match nth 8 cmd (AStr EmptyString) with
  | AInt q => Some q
  | _ => None
  end.

(** The child of a folder that [glob] builds for a directory entry. *)
Definition child (folder : PurePath.t) (n : string) : PurePath.t :=
  PurePath.mk (PurePath.root folder) (PurePath.tail folder ++ [n]).

(** A value of [CAP_PROP_FPS] or [CAP_PROP_FRAME_COUNT] that is not a
    finite number. *)
Definition not_finite (x : pyfloat) : bool :=
  match x with
  | Fin _ => false
  | _ => true
  end.

(** A directory entry name that ends, case ignored, in a supported
    extension. *)
Definition video_name (n : string) : bool :=
  existsb (fun ext => PyStr.endswith (PyStr.lower n) ext) SUPPORTED_FORMATS.

(** The image-writer parameters the configured format selects. *)
Definition writer_param (self : ThumbnailExtractor.t) : imwrite_param :=
  if String.eqb (ThumbnailExtractor.image_format self) "png"
  then PNG_COMPRESSION 9 else JPEG_QUALITY 95.

(** The command line of the start-up check. *)
Definition version_cmd : list arg := [AStr "ffmpeg"; AStr "-version"].

(** A command line that is no ffmpeg call, or one that asks for quality [q]. *)
Definition asks_quality (q : Z) (cmd : list arg) : bool :=
  negb (is_program "ffmpeg" cmd)
  || match cmd_quality cmd with
     | Some q' => q' =? q
     | None => false
     end.

(** ** Sample worlds *)

Module Sample.

Definition probes (path : string) (cmd : list arg) : bool :=
  is_program "ffprobe" cmd &&
  match last cmd (AInt 0) with
  | AStr s => String.eqb s path
  | _ => false
  end.

(** A 100-frame clip at 29.97 frames per second. *)
Definition ntsc_clip : Capture :=
  {| cap_fps := Fin (2997 # 100);
     cap_frame_count := Fin 100;
     cap_read := fun _ => Ret (Some (Frame 0)) |}.

Definition probe_stdout : string := "<ffprobe json: duration 3.336670>".

Definition probe_json : json :=
  JObj [("format", JObj [("duration", JStr "3.336670")])].

(** A directory [videos] with three sound clips, one damaged container and
    one text file; names are matched with regard to case. *)
Definition posix : World :=
  {| path_exists := fun _ => true;
     path_is_dir := String.eqb "videos";
     cwd := "/home/user";
     listdir := fun d =>
       if String.eqb d "videos"
       then ["a.mp4"; "b.avi"; "broken.mkv"; "c.webm"; "notes.txt"]
       else [];
     glob_ignorecase := false;
     cv_open := fun p =>
       if String.eqb p "videos/broken.mkv" then None else Some ntsc_clip;
     cv_imwrite := fun _ _ _ => Ret true;
     run_process := fun cmd =>
       if probes "videos/broken.mkv" cmd
       then Completed 1 EmptyString "Invalid data found when processing input"
       else if is_program "ffprobe" cmd then Completed 0 probe_stdout EmptyString
       else Completed 0 EmptyString EmptyString;
     exists_after_run := fun _ _ => true;
     json_loads := fun s =>
       if String.eqb s probe_stdout then Some probe_json else None;
     float_of_str := fun s =>
       if String.eqb s "3.336670" then Some (Fin (333667 # 100000)) else None |}.

(** The same machine with a directory holding the single file [a.mp4],
    where pathlib matches glob patterns ignoring case, as its Windows
    flavour does. *)
Definition windows : World :=
  {| path_exists := path_exists posix;
     path_is_dir := path_is_dir posix;
     cwd := cwd posix;
     listdir := fun d => if String.eqb d "videos" then ["a.mp4"] else [];
     glob_ignorecase := true;
     cv_open := cv_open posix;
     cv_imwrite := cv_imwrite posix;
     run_process := run_process posix;
     exists_after_run := exists_after_run posix;
     json_loads := json_loads posix;
     float_of_str := float_of_str posix |}.

(** A machine where [ffmpeg] is installed and [ffprobe] is not. *)
Definition without_ffprobe : World :=
  {| path_exists := path_exists posix;
     path_is_dir := path_is_dir posix;
     cwd := cwd posix;
     listdir := listdir posix;
     glob_ignorecase := false;
     cv_open := cv_open posix;
     cv_imwrite := cv_imwrite posix;
     run_process := fun cmd =>
       if is_program "ffprobe" cmd then SpawnError FileNotFoundError
       else Completed 0 EmptyString EmptyString;
     exists_after_run := exists_after_run posix;
     json_loads := json_loads posix;
     float_of_str := float_of_str posix |}.

Definition jpeg_extractor : ThumbnailExtractor.t :=
  {| ThumbnailExtractor.output_folder := PurePath.Path "thumbnails";
     ThumbnailExtractor.image_format := "jpeg";
     ThumbnailExtractor.file_extension := "jpg" |}.

Definition ffmpeg_extractor : FFmpegThumbnailExtractor.t :=
  {| FFmpegThumbnailExtractor.output_folder := PurePath.Path "thumbnails" |}.

End Sample.

Module CliSample.

(** On the sample machine everything but [videos] is a regular file. *)
Definition is_file (p : string) : bool := negb (String.eqb p "videos").

Definition decode_args : DecodeCli.Args :=
  {| DecodeCli.input := "videos";
     DecodeCli.output := "thumbnails";
     DecodeCli.format := "jpeg" |}.

Definition process_args : ProcessCli.Args :=
  {| ProcessCli.input := "videos";
     ProcessCli.output := "thumbnails";
     ProcessCli.quality := 5 |}.

(** A machine without [ffmpeg]. *)
Definition without_ffmpeg : World :=
  {| path_exists := path_exists Sample.posix;
     path_is_dir := path_is_dir Sample.posix;
     cwd := cwd Sample.posix;
     listdir := listdir Sample.posix;
     glob_ignorecase := false;
     cv_open := cv_open Sample.posix;
     cv_imwrite := cv_imwrite Sample.posix;
     run_process := fun _ => SpawnError FileNotFoundError;
     exists_after_run := exists_after_run Sample.posix;
     json_loads := json_loads Sample.posix;
     float_of_str := float_of_str Sample.posix |}.

(** The sample machine with an image writer that reports failure. *)
Definition failing_writer : World :=
  {| path_exists := path_exists Sample.posix;
     path_is_dir := path_is_dir Sample.posix;
     cwd := cwd Sample.posix;
     listdir := listdir Sample.posix;
     glob_ignorecase := false;
     cv_open := cv_open Sample.posix;
     cv_imwrite := fun _ _ _ => Ret false;
     run_process := run_process Sample.posix;
     exists_after_run := exists_after_run Sample.posix;
     json_loads := json_loads Sample.posix;
     float_of_str := float_of_str Sample.posix |}.

(** A directory whose only entry is named [.mp4]. *)
Definition bare_extension : World :=
  {| path_exists := path_exists Sample.posix;
     path_is_dir := path_is_dir Sample.posix;
     cwd := cwd Sample.posix;
     listdir := fun d => if String.eqb d "videos" then [".mp4"] else [];
     glob_ignorecase := false;
     cv_open := cv_open Sample.posix;
     cv_imwrite := cv_imwrite Sample.posix;
     run_process := run_process Sample.posix;
     exists_after_run := exists_after_run Sample.posix;
     json_loads := json_loads Sample.posix;
     float_of_str := float_of_str Sample.posix |}.

(** A capture that reports no usable frame rate. *)
Definition nan_clip : Capture :=
  {| cap_fps := NaN;
     cap_frame_count := Fin 100;
     cap_read := fun _ => Ret (Some (Frame 0)) |}.

(** The sample machine with such captures. *)
Definition nan_rate : World :=
  {| path_exists := path_exists Sample.posix;
     path_is_dir := path_is_dir Sample.posix;
     cwd := cwd Sample.posix;
     listdir := listdir Sample.posix;
     glob_ignorecase := false;
     cv_open := fun _ => Some nan_clip;
     cv_imwrite := cv_imwrite Sample.posix;
     run_process := run_process Sample.posix;
     exists_after_run := exists_after_run Sample.posix;
     json_loads := json_loads Sample.posix;
     float_of_str := float_of_str Sample.posix |}.

End CliSample.

Module HostSample.

Fixpoint is_ascii (s : string) : bool :=
  match s with
  | EmptyString => true
  | String c r => (nat_of_ascii c <? 128)%nat && is_ascii r
  end.

(** A console whose encoding is ASCII: [print] of any other text raises
    [UnicodeEncodeError]. *)
Definition ascii_console (w : World) : Host :=
  {| world := w;
     print_error := fun msg => if is_ascii msg then None else Some ValueError;
     exists_error := fun _ => None;
     open_error := fun _ => None |}.

(** A file system on which [locked/clip.mp4] cannot be examined. *)
Definition locked (w : World) : Host :=
  {| world := w;
     print_error := fun _ => None;
     exists_error := fun p => if String.eqb p "locked/clip.mp4"
                              then Some PermissionError else None;
     open_error := fun _ => None |}.

Definition short_stdout : string := "<ffprobe json: duration 0.500000>".

(** The sample machine with clips of half a second. *)
Definition short_clips : World :=
  {| path_exists := path_exists Sample.posix;
     path_is_dir := path_is_dir Sample.posix;
     cwd := cwd Sample.posix;
     listdir := listdir Sample.posix;
     glob_ignorecase := false;
     cv_open := cv_open Sample.posix;
     cv_imwrite := cv_imwrite Sample.posix;
     run_process := fun cmd =>
       if is_program "ffprobe" cmd then Completed 0 short_stdout EmptyString
       else Completed 0 EmptyString EmptyString;
     exists_after_run := exists_after_run Sample.posix;
     json_loads := fun s =>
       if String.eqb s short_stdout
       then Some (JObj [("format", JObj [("duration", JStr "0.500000")])])
       else None;
     float_of_str := fun s =>
       if String.eqb s "0.500000" then Some (Fin (1 # 2)) else None |}.

(** The sample machine where ffprobe, asked about [broken.mkv], exits
    with status 0 and prints the JSON value [null]. *)
Definition null_duration : World :=
  {| path_exists := path_exists Sample.posix;
     path_is_dir := path_is_dir Sample.posix;
     cwd := cwd Sample.posix;
     listdir := listdir Sample.posix;
     glob_ignorecase := false;
     cv_open := cv_open Sample.posix;
     cv_imwrite := cv_imwrite Sample.posix;
     run_process := fun cmd =>
       if Sample.probes "videos/broken.mkv" cmd
       then Completed 0 "null" EmptyString
       else run_process Sample.posix cmd;
     exists_after_run := exists_after_run Sample.posix;
     json_loads := fun s =>
       if String.eqb s "null" then Some JNull else json_loads Sample.posix s;
     float_of_str := float_of_str Sample.posix |}.

End HostSample.

(** * Proofs *)

Import Sample.

(** ** Tactics for running the monad *)

Ltac unfold_M :=
  unfold print, tell, ret, raise, lift, bind, try_except, try_finally,
    trace, outcome in *.

Ltac simp := cbn -[String.append PyStr.take].

(** Case analysis on the innermost scrutinee the goal is stuck on. *)
Ltac step :=
  match goal with
  | |- context [match ?x with _ => _ end] =>
      lazymatch x with
      | context [match _ with _ => _ end] => fail
      | _ => destruct x eqn:?
      end
  end; simp.

(** ** Frame rate and duration arithmetic *)

Lemma trunc_bounds (F : Q) :
  (0 < F)%Q ->
  (inject_Z (PyFloat.trunc F) <= F)%Q /\
  (F < inject_Z (PyFloat.trunc F) + 1)%Q /\
  0 <= PyFloat.trunc F.
Proof.
  destruct F as [a b].
  unfold PyFloat.trunc, Qlt, Qle, inject_Z, Qplus; simpl. intros Ha.
  assert (0 < a) by lia.
  rewrite Z.quot_div_nonneg by lia.
  pose proof (Z.div_mod a (Zpos b) ltac:(lia)).
  pose proof (Z.mod_pos_bound a (Zpos b) ltac:(lia)).
  pose proof (Z.div_pos a (Zpos b) ltac:(lia) ltac:(lia)).
  repeat split; nia.
Qed.

Lemma Qle_bool_false (x y : Q) : Qle_bool x y = false -> (y < x)%Q.
Proof.
  intros H. apply Qnot_le_lt. intros Hle. apply Qle_bool_iff in Hle. congruence.
Qed.

Lemma inject_Z_sub (a b : Z) : inject_Z (a - b) = (inject_Z a - inject_Z b)%Q.
Proof. unfold Z.sub, Qminus. now rewrite inject_Z_plus, inject_Z_opp. Qed.

(** C1. For a frame rate [F > 0] and a frame count [N > 0], hence a
    duration of [N / F] seconds, [int] of the frame count and of the frame
    rate and the process backend's timestamp are all defined, and the
    decode backend's target frame,
    taken as the offset [target_frame / F], lies within one frame's
    duration [1 / F] of the process backend's timestamp
    [max(0, N / F - 1)]. *)
Theorem targets_agree_within_one_frame (F : Q) (N : Z) :
  (0 < F)%Q -> 0 < N ->
  exists (k : Z) (ts : Q),
    PyFloat.to_int (Fin (inject_Z N)) = Ret N /\
    PyFloat.to_int (Fin F) = Ret k /\
    FFmpegThumbnailExtractor.timestamp (Fin (inject_Z N / F)) = Fin ts /\
    (Qabs (inject_Z (ThumbnailExtractor.target_frame N k) / F - ts) <= 1 / F)%Q.
Proof.
  intros HF HN.
  destruct (trunc_bounds F HF) as (Hlo & Hhi & Hk).
  set (k := PyFloat.trunc F) in *.
  assert (HiF : (0 < / F)%Q) by now apply Qinv_lt_0_compat.
  assert (Hinv : (F * / F == 1)%Q) by (apply Qmult_inv_r; lra).
  assert (HintN : PyFloat.to_int (Fin (inject_Z N)) = Ret N).
  { unfold PyFloat.to_int, PyFloat.trunc. cbn. now rewrite Z.quot_1_r. }
  exists k.
  unfold FFmpegThumbnailExtractor.timestamp, PyFloat.max_zero, PyFloat.sub_one,
    PyFloat.gt_zero, ThumbnailExtractor.target_frame.
  destruct (Qle_bool (inject_Z N / F - 1) 0) eqn:Hd; cbn [negb].
  - exists 0%Q. split; [exact HintN|]. split; [reflexivity|split; [reflexivity|]].
    apply Qle_bool_iff in Hd. apply Qabs_Qle_condition.
    unfold Qdiv in *.
    destruct (Z.max_spec 0 (N - k)) as [[Hc ->]|[Hc ->]].
    + assert (0 <= inject_Z (N - k))%Q
        by (change 0%Q with (inject_Z 0); rewrite <- Zle_Qle; lia).
      rewrite inject_Z_sub in *. split; nra.
    + change (inject_Z 0) with 0%Q. split; nra.
  - exists (inject_Z N / F - 1)%Q.
    split; [exact HintN|]. split; [reflexivity|split; [reflexivity|]].
    apply Qle_bool_false in Hd. apply Qabs_Qle_condition.
    unfold Qdiv in *.
    destruct (Z.max_spec 0 (N - k)) as [[Hc ->]|[Hc ->]].
    + rewrite inject_Z_sub.
      assert (0 <= (F - inject_Z k) * / F)%Q by (apply Qmult_le_0_compat; lra).
      assert (0 <= (inject_Z k + 1 - F) * / F)%Q by (apply Qmult_le_0_compat; lra).
      split; nra.
    + exfalso. assert (inject_Z N <= inject_Z k)%Q.
      { rewrite <- Zle_Qle. lia. }
      assert (0 <= (F - inject_Z N) * / F)%Q by (apply Qmult_le_0_compat; lra).
      nra.
Qed.

Lemma targets_agree_within_one_frame_witness :
  exists (k : Z) (ts : Q),
    PyFloat.to_int (Fin (inject_Z 100)) = Ret 100 /\
    PyFloat.to_int (Fin (2997 # 100)) = Ret k /\
    FFmpegThumbnailExtractor.timestamp (Fin (inject_Z 100 / (2997 # 100))) = Fin ts /\
    (Qabs (inject_Z (ThumbnailExtractor.target_frame 100 k) / (2997 # 100) - ts)
     <= 1 / (2997 # 100))%Q.
Proof.
  exact (targets_agree_within_one_frame (2997 # 100) 100 eq_refl eq_refl).
Defined.

(** ** The decode backend *)

Section DecodeFacts.
Variable w : World.
Variable self : ThumbnailExtractor.t.
Variable output_name : option string.
Variable p : PurePath.t.

Lemma decode_not_found :
  path_exists w (PurePath.str p) = false ->
  ThumbnailExtractor.extract_thumbnail w self p output_name
  = ([EvPrint ("Error: Video file not found: " ++ PurePath.str p)], Ret false).
Proof.
  intros H. unfold ThumbnailExtractor.extract_thumbnail. rewrite H. reflexivity.
Qed.

Lemma decode_unsupported :
  path_exists w (PurePath.str p) = true ->
  is_supported p = false ->
  ThumbnailExtractor.extract_thumbnail w self p output_name
  = ([EvPrint ("Warning: Unsupported format for " ++ PurePath.name p)], Ret false).
Proof.
  intros H1 H2. unfold ThumbnailExtractor.extract_thumbnail, is_supported in *.
  rewrite H1, H2. reflexivity.
Qed.

Lemma decode_all_released :
  all_released
    (trace (ThumbnailExtractor.extract_thumbnail w self p output_name)) = true.
Proof.
  unfold ThumbnailExtractor.extract_thumbnail, ThumbnailExtractor.VideoCapture,
    ThumbnailExtractor.extract_body, ThumbnailExtractor.imwrite.
  unfold_M. simp.
  repeat step; reflexivity.
Qed.
End DecodeFacts.

Section DecodeTarget.
Variable w : World.
Variable self : ThumbnailExtractor.t.
Variable output_name : option string.
Variable p : PurePath.t.

Lemma decode_never_raises_Exception :
  match outcome (ThumbnailExtractor.extract_thumbnail w self p output_name) with
  | Ret _ => True
  | Raise e => is_Exception e = false
  end.
Proof.
  unfold ThumbnailExtractor.extract_thumbnail, ThumbnailExtractor.VideoCapture,
    ThumbnailExtractor.extract_body, ThumbnailExtractor.imwrite.
  unfold_M. simp.
  repeat step; auto; try discriminate.
Qed.

End DecodeTarget.



Section ProcessFacts.
Variable w : World.
Variable self : FFmpegThumbnailExtractor.t.
Variable output_name : option string.
Variable quality : Z.
Variable p : PurePath.t.

Lemma process_not_found :
  path_exists w (PurePath.str p) = false ->
  FFmpegThumbnailExtractor.extract_thumbnail w self p output_name quality
  = ([EvPrint ("Error: Video file not found: " ++ PurePath.str p)], Ret false).
Proof.
  intros H. unfold FFmpegThumbnailExtractor.extract_thumbnail. rewrite H. reflexivity.
Qed.

Lemma process_unsupported :
  path_exists w (PurePath.str p) = true ->
  is_supported p = false ->
  FFmpegThumbnailExtractor.extract_thumbnail w self p output_name quality
  = ([EvPrint ("Warning: Unsupported format for " ++ PurePath.name p)], Ret false).
Proof.
  intros H1 H2. unfold FFmpegThumbnailExtractor.extract_thumbnail, is_supported in *.
  rewrite H1, H2. reflexivity.
Qed.

Lemma process_all_released :
  all_released (trace (FFmpegThumbnailExtractor.extract_thumbnail
                         w self p output_name quality)) = true.
Proof.
  unfold FFmpegThumbnailExtractor.extract_thumbnail,
    FFmpegThumbnailExtractor.get_video_duration,
    FFmpegThumbnailExtractor.subprocess_run.
  unfold_M. simp.
  repeat step; reflexivity.
Qed.

(** Once the probe has returned, nothing escapes the single-file
    operation except what is not an [Exception]. *)
Lemma process_catches_after_probe (t0 : list event) (d : option pyfloat) :
  path_exists w (PurePath.str p) = true ->
  is_supported p = true ->
  FFmpegThumbnailExtractor.get_video_duration w p = (t0, Ret d) ->
  match outcome (FFmpegThumbnailExtractor.extract_thumbnail
                   w self p output_name quality) with
  | Ret _ => True
  | Raise e => is_Exception e = false
  end.
Proof.
  intros Hex Hsup Hd.
  unfold FFmpegThumbnailExtractor.extract_thumbnail, is_supported in *.
  rewrite Hex, Hsup, Hd.
  unfold FFmpegThumbnailExtractor.subprocess_run.
  unfold_M. simp.
  repeat step; auto; try discriminate.
Qed.

Lemma process_unreadable_duration (t0 : list event) :
  FFmpegThumbnailExtractor.get_video_duration w p = (t0, Ret None) ->
  outcome (FFmpegThumbnailExtractor.extract_thumbnail
             w self p output_name quality) = Ret false.
Proof.
  intros Hd.
  unfold FFmpegThumbnailExtractor.extract_thumbnail.
  rewrite Hd. unfold_M. simp.
  repeat step; reflexivity.
Qed.

Lemma process_run_with_duration (t0 : list event) (d : pyfloat) :
  path_exists w (PurePath.str p) = true ->
  is_supported p = true ->
  FFmpegThumbnailExtractor.get_video_duration w p = (t0, Ret (Some d)) ->
  PyFloat.le_zero d = false ->
  let run := FFmpegThumbnailExtractor.extract_thumbnail
               w self p output_name quality in
  let output_path :=
    PurePath.joinpath (FFmpegThumbnailExtractor.output_folder self)
      (FFmpegThumbnailExtractor.output_file_name p output_name) in
  let cmd := FFmpegThumbnailExtractor.ffmpeg_cmd
               (FFmpegThumbnailExtractor.timestamp d) p quality output_path in
  commands (trace run) = (commands t0 ++ [cmd])%list /\
  (forall out err,
      run_process w cmd = Completed 0 out err ->
      exists_after_run w cmd (PurePath.str output_path) = true ->
      outcome run = Ret true) /\
  (outcome run = Ret true ->
   exists out err, run_process w cmd = Completed 0 out err).
Proof.
  intros Hex Hsup Hd Hle. cbv zeta.
  unfold FFmpegThumbnailExtractor.extract_thumbnail, is_supported in *.
  rewrite Hex, Hsup, Hd. clear Hd.
  unfold print, tell, ret, raise, lift, bind, try_except, try_finally,
    trace, outcome.
  simp. rewrite Hle.
  set (output_path := PurePath.joinpath _ _).
  set (cmd := FFmpegThumbnailExtractor.ffmpeg_cmd _ _ _ _).
  unfold FFmpegThumbnailExtractor.subprocess_run.
  unfold print, tell, ret, raise, lift, bind, try_except, try_finally,
    trace, outcome.
  split; [|split].
  - destruct (run_process w cmd) as [e|rc out err]; simp.
    + destruct e; simp; repeat step;
        unfold commands; rewrite flat_map_app; cbn;
        rewrite ?app_nil_r; reflexivity.
    + repeat step; unfold commands; rewrite flat_map_app; cbn;
        rewrite ?app_nil_r; reflexivity.
  - intros out err Hrun Hout. rewrite Hrun. simp.
    rewrite Hout. reflexivity.
  - destruct (run_process w cmd) as [e|rc out err]; simp.
    + destruct e; simp; repeat step; discriminate.
    + destruct (rc =? 0) eqn:E; simp.
      * apply Z.eqb_eq in E. subst rc. intros _. eauto.
      * repeat step; discriminate.
Qed.

End ProcessFacts.

(** ** The folder loop *)

Lemma filter_length_perm {A} (f : A -> bool) (l l' : list A) :
  Permutation l l' -> length (filter f l) = length (filter f l').
Proof.
  induction 1 as [|x l l' _ IH|x y l|l l' l'' _ IH1 _ IH2]; cbn.
  - reflexivity.
  - destruct (f x); cbn; congruence.
  - destruct (f x), (f y); reflexivity.
  - congruence.
Qed.

Section FolderFacts.
Variable w : World.
Variable output_folder : PurePath.t.
Variable extract : PurePath.t -> M bool.

Lemma process_loop_runs_every_file (files : list PurePath.t) :
  (forall p, In p files -> returns_bool extract p) ->
  forall s f,
    Folder.process_loop extract files s f
    = (flat_map (one_file extract) files,
       Ret (s + Z.of_nat (length (filter (succeeded extract) files)),
            f + Z.of_nat (length (filter (failed extract) files)))).
Proof.
  induction files as [|p rest IH]; intros Hret s f.
  - cbn. unfold ret. now rewrite !Z.add_0_r.
  - destruct (Hret p (or_introl eq_refl)) as [b Hb].
    assert (Hrest : forall q, In q rest -> returns_bool extract q)
      by (intros q Hq; apply Hret; now right).
    cbn [Folder.process_loop flat_map filter].
    unfold succeeded at 1, failed at 1, one_file at 1.
    unfold outcome, trace in *.
    destruct (extract p) as [t r]. cbn in Hb. subst r.
    unfold print, tell, bind.
    destruct b; rewrite (IH Hrest); cbn [length fst snd app];
      rewrite ?Nat2Z.inj_succ; do 3 f_equal; lia.
Qed.

Lemma process_loop_sum (files : list PurePath.t) :
  forall s f s' f',
    outcome (Folder.process_loop extract files s f) = Ret (s', f') ->
    s' + f' = s + f + Z.of_nat (length files) /\ s <= s' /\ f <= f'.
Proof.
  induction files as [|p rest IH]; intros s f s' f' H.
  - cbn in H. inversion H; subst. cbn. lia.
  - cbn [Folder.process_loop] in H. unfold print, tell, bind, outcome in *.
    destruct (extract p) as [t [b|e]]; [|discriminate].
    destruct b.
    + destruct (Folder.process_loop extract rest (s + 1) f) as [t' r] eqn:E.
      cbn in H. subst r.
      specialize (IH (s + 1) f s' f'). rewrite E in IH.
      specialize (IH eq_refl). cbn [length]. lia.
    + destruct (Folder.process_loop extract rest s (f + 1)) as [t' r] eqn:E.
      cbn in H. subst r.
      specialize (IH s (f + 1) s' f'). rewrite E in IH.
      specialize (IH eq_refl). cbn [length]. lia.
Qed.

Lemma process_folder_enters_loop (folder : PurePath.t) :
  path_exists w (PurePath.str folder) = true ->
  path_is_dir w (PurePath.str folder) = true ->
  Folder.find_video_files w folder <> [] ->
  outcome (Folder.process_folder w output_folder extract folder)
  = outcome (Folder.process_loop extract (Folder.find_video_files w folder) 0 0).
Proof.
  intros Hex Hdir Hne. unfold Folder.process_folder.
  rewrite Hex, Hdir. cbn [negb].
  destruct (Folder.find_video_files w folder) as [|v vs] eqn:E; [congruence|].
  unfold print, tell, bind, outcome.
  destruct (Folder.process_loop extract (v :: vs) 0 0) as [t r]. reflexivity.
Qed.

Lemma counts_partition (files : list PurePath.t) :
  (forall p, In p files -> returns_bool extract p) ->
  (length (filter (succeeded extract) files)
   + length (filter (failed extract) files) = length files)%nat.
Proof.
  induction files as [|p rest IH]; intros Hret; [reflexivity|].
  destruct (Hret p (or_introl eq_refl)) as [b Hb].
  cbn [filter]. unfold succeeded at 1, failed at 1. rewrite Hb.
  specialize (IH (fun q Hq => Hret q (or_intror Hq))).
  destruct b; cbn [length]; lia.
Qed.

Lemma three_and_one (files : list PurePath.t) (v1 v2 v3 bad : PurePath.t) :
  Permutation files [v1; v2; v3; bad] ->
  outcome (extract v1) = Ret true ->
  outcome (extract v2) = Ret true ->
  outcome (extract v3) = Ret true ->
  outcome (extract bad) = Ret false ->
  outcome (Folder.process_loop extract files 0 0) = Ret (3, 1).
Proof.
  intros Hperm H1 H2 H3 Hbad.
  assert (Hret : forall p, In p files -> returns_bool extract p).
  { intros p Hp. apply (Permutation_in _ Hperm) in Hp.
    unfold returns_bool. cbn in Hp.
    destruct Hp as [<-|[<-|[<-|[<-|[]]]]]; eauto. }
  rewrite (process_loop_runs_every_file files Hret). unfold outcome at 1. cbn [snd].
  rewrite (filter_length_perm (succeeded extract) _ _ Hperm).
  rewrite (filter_length_perm (failed extract) _ _ Hperm).
  cbn [filter]. unfold succeeded, failed. rewrite H1, H2, H3, Hbad. reflexivity.
Qed.
End FolderFacts.

(** ** Enumeration with regard to case *)

(** Two endings of one string are endings of each other, one way or the
    other. *)
Lemma endswith_comparable (s e e' : string) :
  PyStr.endswith s e = true -> PyStr.endswith s e' = true ->
  PyStr.endswith e e' = true \/ PyStr.endswith e' e = true.
Proof.
  induction s as [|c r IH]; cbn [PyStr.endswith].
  - destruct (String.eqb EmptyString e) eqn:E; [|discriminate].
    apply String.eqb_eq in E. subst e. intros _ H. left.
    cbn [PyStr.endswith]. exact H.
  - destruct (String.eqb (String c r) e) eqn:E.
    + apply String.eqb_eq in E. subst e. intros _ H. left.
      cbn [PyStr.endswith]. exact H.
    + destruct (String.eqb (String c r) e') eqn:E'.
      * apply String.eqb_eq in E'. subst e'. intros H _. right.
        cbn [PyStr.endswith]. now rewrite E.
      * exact IH.
Qed.

Lemma glob_endings_exclusive (n e e' : string) :
  In e glob_endings -> In e' glob_endings -> e <> e' ->
  PyStr.endswith n e = true -> PyStr.endswith n e' = false.
Proof.
  intros He He' Hne Hn.
  destruct (PyStr.endswith n e') eqn:Hn'; [exfalso|reflexivity].
  assert (Hall : forallb (fun a => forallb (fun b =>
            String.eqb a b || negb (PyStr.endswith a b)) glob_endings)
            glob_endings = true) by (vm_compute; reflexivity).
  rewrite forallb_forall in Hall.
  pose proof (Hall e He) as H1. rewrite forallb_forall in H1. specialize (H1 e' He').
  pose proof (Hall e' He') as H2. rewrite forallb_forall in H2. specialize (H2 e He).
  destruct (endswith_comparable n e e' Hn Hn') as [H|H].
  - rewrite H in H1. cbn in H1. rewrite orb_false_r in H1.
    apply String.eqb_eq in H1. contradiction.
  - rewrite H in H2. cbn in H2. rewrite orb_false_r in H2.
    apply String.eqb_eq in H2. congruence.
Qed.

Lemma NoDup_exclusive_filters (names pats : list string) :
  NoDup names -> NoDup pats ->
  (forall n e e', In e pats -> In e' pats -> e <> e' ->
                  PyStr.endswith n e = true -> PyStr.endswith n e' = false) ->
  NoDup (flat_map (fun e => filter (fun n => PyStr.endswith n e) names) pats).
Proof.
  intros Hnames Hpats Hex. induction pats as [|e pats IH]; cbn [flat_map].
  - constructor.
  - inversion Hpats as [|? ? Hnotin Hpats']; subst.
    apply NoDup_app.
    + now apply NoDup_filter.
    + apply IH; [exact Hpats'|].
      intros n a b Ha Hb. apply Hex; now right.
    + intros n Hn Hn'. apply filter_In in Hn. destruct Hn as [_ Hn].
      apply in_flat_map in Hn'. destruct Hn' as (e' & He' & Hn').
      apply filter_In in Hn'. destruct Hn' as [_ Hn'].
      assert (e <> e') by (intros ->; contradiction).
      rewrite (Hex n e e' (or_introl eq_refl) (or_intror He') H Hn) in Hn'.
      discriminate.
Qed.

Lemma find_video_files_case_sensitive (w : World) (folder : PurePath.t) :
  glob_ignorecase w = false ->
  Folder.find_video_files w folder
  = map (fun n => PurePath.mk (PurePath.root folder) (PurePath.tail folder ++ [n]))
        (flat_map (fun e => filter (fun n => PyStr.endswith n e)
                                   (listdir w (PurePath.str folder)))
                  glob_endings).
Proof.
  intros Hcs. unfold Folder.find_video_files, Folder.glob, Folder.matches_star.
  rewrite Hcs. unfold glob_endings, SUPPORTED_FORMATS.
  cbn [flat_map app]. rewrite !map_app, !app_nil_r, <- !app_assoc. reflexivity.
Qed.

(** Where patterns are matched with regard to case, no directory entry is
    enumerated twice. *)
Lemma case_sensitive_enumeration_NoDup (w : World) (folder : PurePath.t) :
  glob_ignorecase w = false ->
  NoDup (listdir w (PurePath.str folder)) ->
  NoDup (Folder.find_video_files w folder).
Proof.
  intros Hcs Hnames. rewrite (find_video_files_case_sensitive w folder Hcs).
  apply Injective_map_NoDup.
  - intros a b H. inversion H as [H']. apply app_inv_head in H'. congruence.
  - apply NoDup_exclusive_filters.
    + exact Hnames.
    + unfold glob_endings, SUPPORTED_FORMATS. cbn.
      repeat (constructor; [cbn; intuition discriminate|]). constructor.
    + intros n e e'. apply glob_endings_exclusive.
Qed.

(** ** Paths and output names *)

Lemma endswith_spec (s suf : string) :
  PyStr.endswith s suf = true -> exists pre, s = pre ++ suf.
Proof.
  induction s as [|c r IH]; cbn [PyStr.endswith].
  - destruct (String.eqb EmptyString suf) eqn:E; [|discriminate].
    intros _. apply String.eqb_eq in E. now exists EmptyString.
  - destruct (String.eqb (String c r) suf) eqn:E.
    + intros _. apply String.eqb_eq in E. now exists EmptyString.
    + intros H. destruct (IH H) as [pre ->]. now exists (String c pre).
Qed.





Lemma append_length (a b : string) :
  String.length (a ++ b) = (String.length a + String.length b)%nat.
Proof. induction a; cbn; congruence. Qed.




















Section Writes.
Variable w : World.


Lemma probe_writes_nothing (p : PurePath.t) :
  ffmpeg_outputs (trace (FFmpegThumbnailExtractor.get_video_duration w p)) = [].
Proof.
  unfold FFmpegThumbnailExtractor.get_video_duration,
    FFmpegThumbnailExtractor.subprocess_run.
  unfold print, tell, ret, raise, lift, bind, try_except, try_finally,
    trace, outcome.
  simp.
  repeat step; reflexivity.
Qed.

End Writes.




(** ** Single-file extraction: preconditions, release, escaping errors *)

Lemma is_supported_spec (p : PurePath.t) :
  is_supported p = true <->
  In (PyStr.lower (PurePath.suffix p))
     [".mp4"; ".avi"; ".mov"; ".mkv"; ".flv"; ".wmv"; ".webm"].
Proof.
  unfold is_supported, PyStr.mem, SUPPORTED_FORMATS.
  rewrite existsb_exists. split.
  - intros (x & Hin & Hx). apply String.eqb_eq in Hx. now subst x.
  - intros H. exists (PyStr.lower (PurePath.suffix p)).
    split; [exact H|apply String.eqb_refl].
Qed.

Lemma decode_reaches_backend (w : World) (self : ThumbnailExtractor.t)
      (output_name : option string) (p : PurePath.t) :
  path_exists w (PurePath.str p) = true ->
  is_supported p = true ->
  no_backend_event
    (trace (ThumbnailExtractor.extract_thumbnail w self p output_name)) = false.
Proof.
  intros Hex Hsup.
  unfold ThumbnailExtractor.extract_thumbnail, is_supported in *.
  rewrite Hex, Hsup. unfold ThumbnailExtractor.VideoCapture.
  unfold print, tell, ret, bind, trace. simp.
  repeat step; reflexivity.
Qed.

Lemma process_reaches_backend (w : World) (self : FFmpegThumbnailExtractor.t)
      (output_name : option string) (quality : Z) (p : PurePath.t) :
  path_exists w (PurePath.str p) = true ->
  is_supported p = true ->
  no_backend_event
    (trace (FFmpegThumbnailExtractor.extract_thumbnail
              w self p output_name quality)) = false.
Proof.
  intros Hex Hsup.
  unfold FFmpegThumbnailExtractor.extract_thumbnail, is_supported in *.
  rewrite Hex, Hsup.
  unfold FFmpegThumbnailExtractor.get_video_duration,
    FFmpegThumbnailExtractor.subprocess_run.
  unfold print, tell, ret, raise, lift, bind, try_except, trace. simp.
  destruct (run_process w (FFmpegThumbnailExtractor.ffprobe_cmd p));
    simp; repeat step; reflexivity.
Qed.

(** C5. In both backends a path that does not exist gives [False] with no
    backend event in the trace; so does an existing path whose suffix,
    lower-cased, is not among the seven supported ones; an existing path
    with a supported suffix does reach the backend. The verdict depends on
    the suffix up to case only: [video.MP4] and [video.mp4] pass,
    [video.txt] does not. *)
Theorem preconditions_short_circuit
        (w : World) (dself : ThumbnailExtractor.t)
        (fself : FFmpegThumbnailExtractor.t)
        (output_name : option string) (quality : Z) (p : PurePath.t) :
  let drun := ThumbnailExtractor.extract_thumbnail w dself p output_name in
  let frun := FFmpegThumbnailExtractor.extract_thumbnail
                w fself p output_name quality in
  (path_exists w (PurePath.str p) = false ->
   outcome drun = Ret false /\ no_backend_event (trace drun) = true /\
   outcome frun = Ret false /\ no_backend_event (trace frun) = true) /\
  (path_exists w (PurePath.str p) = true -> is_supported p = false ->
   outcome drun = Ret false /\ no_backend_event (trace drun) = true /\
   outcome frun = Ret false /\ no_backend_event (trace frun) = true) /\
  (path_exists w (PurePath.str p) = true -> is_supported p = true ->
   no_backend_event (trace drun) = false /\
   no_backend_event (trace frun) = false) /\
  (is_supported p = true <->
   In (PyStr.lower (PurePath.suffix p))
      [".mp4"; ".avi"; ".mov"; ".mkv"; ".flv"; ".wmv"; ".webm"]) /\
  (forall p', PyStr.lower (PurePath.suffix p') = PyStr.lower (PurePath.suffix p) ->
              is_supported p' = is_supported p) /\
  is_supported (PurePath.Path "video.MP4") = true /\
  is_supported (PurePath.Path "video.mp4") = true /\
  is_supported (PurePath.Path "video.txt") = false.
Proof.
  cbv zeta. repeat apply conj.
  - intros H.
    rewrite (decode_not_found w dself output_name p H).
    rewrite (process_not_found w fself output_name quality p H).
    repeat split.
  - intros H1 H2.
    rewrite (decode_unsupported w dself output_name p H1 H2).
    rewrite (process_unsupported w fself output_name quality p H1 H2).
    repeat split.
  - intros H1 H2. split.
    + now apply decode_reaches_backend.
    + now apply process_reaches_backend.
  - apply is_supported_spec.
  - apply is_supported_spec.
  - intros p' H. unfold is_supported. now rewrite H.
  - reflexivity.
  - reflexivity.
  - reflexivity.
Qed.

Lemma preconditions_short_circuit_witness :
  no_backend_event
    (trace (ThumbnailExtractor.extract_thumbnail posix jpeg_extractor
              (PurePath.Path "videos/notes.txt") None)) = true /\
  no_backend_event
    (trace (FFmpegThumbnailExtractor.extract_thumbnail posix ffmpeg_extractor
              (PurePath.Path "videos/notes.txt") None 2)) = true.
Proof.
  destruct (proj1 (proj2
    (preconditions_short_circuit posix jpeg_extractor ffmpeg_extractor None 2
       (PurePath.Path "videos/notes.txt"))) eq_refl eq_refl)
    as (_ & H1 & _ & H2).
  split; assumption.
Defined.

(** C9. Whatever a single-file extraction returns or raises, its trace
    leaves no capture handle open and no child process running: in the
    decode backend every opened capture is released, in the process
    backend every spawned child has been waited for. *)
Theorem resources_released_on_every_path
        (w : World) (dself : ThumbnailExtractor.t)
        (fself : FFmpegThumbnailExtractor.t)
        (output_name : option string) (quality : Z) (p : PurePath.t) :
  all_released
    (trace (ThumbnailExtractor.extract_thumbnail w dself p output_name)) = true /\
  all_released
    (trace (FFmpegThumbnailExtractor.extract_thumbnail
              w fself p output_name quality)) = true.
Proof.
  split.
  - apply decode_all_released.
  - apply process_all_released.
Qed.

(** C4 fails on the process backend. Where [ffmpeg] is installed and
    [ffprobe] is not, the constructor's check passes, the file exists and
    has a supported extension, and [extract_thumbnail] ends in an
    uncaught [FileNotFoundError] instead of returning [False]:
    [get_video_duration] catches [CalledProcessError], [JSONDecodeError]
    and [ValueError] only, and is called outside any [try]. *)
Theorem missing_ffprobe_escapes_extract :
  let clip := PurePath.Path "clip.mp4" in
  outcome (FFmpegThumbnailExtractor.init without_ffprobe "thumbnails")
  = Ret ffmpeg_extractor /\
  path_exists without_ffprobe (PurePath.str clip) = true /\
  is_supported clip = true /\
  run_process without_ffprobe (FFmpegThumbnailExtractor.ffprobe_cmd clip)
  = SpawnError FileNotFoundError /\
  FFmpegThumbnailExtractor.extract_thumbnail
    without_ffprobe ffmpeg_extractor clip None 2
  = ([EvSpawnFailed (FFmpegThumbnailExtractor.ffprobe_cmd clip)],
     Raise FileNotFoundError).
Proof. vm_compute. repeat split; reflexivity. Qed.

(** C8 fails where glob patterns match ignoring case. A folder holding
    the single file [a.mp4] is enumerated as two entries, one for the
    pattern [*.mp4] and one for [*.MP4]; both backends extract from the
    file twice and report [(2, 0)]. *)
Theorem case_variant_patterns_repeat_file :
  let folder := PurePath.Path "videos" in
  let a := PurePath.Path "videos/a.mp4" in
  let drun := ThumbnailExtractor.process_folder windows jpeg_extractor folder in
  let frun := FFmpegThumbnailExtractor.process_folder windows ffmpeg_extractor folder in
  listdir windows (PurePath.str folder) = ["a.mp4"] /\
  Folder.find_video_files windows folder = [a; a] /\
  outcome drun = Ret (2, 0) /\
  imwrites (trace drun)
  = ["thumbnails/a_thumbnail.jpg"; "thumbnails/a_thumbnail.jpg"] /\
  outcome frun = Ret (2, 0) /\
  ffmpeg_outputs (trace frun)
  = ["thumbnails/a_thumbnail.jpg"; "thumbnails/a_thumbnail.jpg"].
Proof. vm_compute. repeat split; reflexivity. Qed.

(** ** Folder extraction: the loop and its summary *)

Section FolderSummary.
Variable w : World.
Variable dself : ThumbnailExtractor.t.
Variable fself : FFmpegThumbnailExtractor.t.

Lemma folder_three_and_one (output_folder : PurePath.t)
      (extract : PurePath.t -> M bool)
      (folder v1 v2 v3 bad : PurePath.t) :
  path_exists w (PurePath.str folder) = true ->
  path_is_dir w (PurePath.str folder) = true ->
  Permutation (Folder.find_video_files w folder) [v1; v2; v3; bad] ->
  outcome (extract v1) = Ret true ->
  outcome (extract v2) = Ret true ->
  outcome (extract v3) = Ret true ->
  outcome (extract bad) = Ret false ->
  outcome (Folder.process_folder w output_folder extract folder) = Ret (3, 1).
Proof.
  intros Hex Hdir Hperm H1 H2 H3 Hbad.
  rewrite process_folder_enters_loop; auto.
  - eapply three_and_one; eauto.
  - intros E. rewrite E in Hperm. apply Permutation_nil in Hperm. discriminate.
Qed.

(** Over any list of enumerated files on which single-file extraction
    returns a boolean, the folder loop of both backends performs one
    extraction per entry, in order, whatever the earlier entries returned,
    and reports the numbers of [True] and [False] results. In particular
    a folder whose enumeration is, in some order, three files that
    extract and one that does not (for the process backend: whose
    duration cannot be read) gives the summary [(3, 1)]. *)
Theorem folder_continues_after_failure :
  let dextract := ThumbnailExtractor.extract_one w dself in
  let fextract := FFmpegThumbnailExtractor.extract_one w fself in
  (forall files,
      (forall p, In p files -> returns_bool dextract p) ->
      Folder.process_loop dextract files 0 0
      = (flat_map (one_file dextract) files,
         Ret (Z.of_nat (length (filter (succeeded dextract) files)),
              Z.of_nat (length (filter (failed dextract) files))))) /\
  (forall files,
      (forall p, In p files -> returns_bool fextract p) ->
      Folder.process_loop fextract files 0 0
      = (flat_map (one_file fextract) files,
         Ret (Z.of_nat (length (filter (succeeded fextract) files)),
              Z.of_nat (length (filter (failed fextract) files))))) /\
  (forall folder v1 v2 v3 bad,
      path_exists w (PurePath.str folder) = true ->
      path_is_dir w (PurePath.str folder) = true ->
      Permutation (Folder.find_video_files w folder) [v1; v2; v3; bad] ->
      outcome (dextract v1) = Ret true ->
      outcome (dextract v2) = Ret true ->
      outcome (dextract v3) = Ret true ->
      outcome (dextract bad) = Ret false ->
      outcome (ThumbnailExtractor.process_folder w dself folder) = Ret (3, 1)) /\
  (forall folder v1 v2 v3 bad t0,
      path_exists w (PurePath.str folder) = true ->
      path_is_dir w (PurePath.str folder) = true ->
      Permutation (Folder.find_video_files w folder) [v1; v2; v3; bad] ->
      outcome (fextract v1) = Ret true ->
      outcome (fextract v2) = Ret true ->
      outcome (fextract v3) = Ret true ->
      FFmpegThumbnailExtractor.get_video_duration w bad = (t0, Ret None) ->
      outcome (FFmpegThumbnailExtractor.process_folder w fself folder)
      = Ret (3, 1)).
Proof.
  intros dextract fextract. repeat apply conj.
  - intros files H. now rewrite (process_loop_runs_every_file dextract files H).
  - intros files H. now rewrite (process_loop_runs_every_file fextract files H).
  - intros folder v1 v2 v3 bad Hex Hdir Hperm H1 H2 H3 Hbad.
    unfold ThumbnailExtractor.process_folder.
    eapply folder_three_and_one; eauto.
  - intros folder v1 v2 v3 bad t0 Hex Hdir Hperm H1 H2 H3 Hbad.
    unfold FFmpegThumbnailExtractor.process_folder.
    eapply folder_three_and_one; eauto.
    subst fextract. unfold FFmpegThumbnailExtractor.extract_one.
    eapply process_unreadable_duration; eauto.
Qed.

(** C10. On an existing directory with at least one enumerated file,
    whenever folder extraction returns a summary its two counters are
    non-negative and add up to the number of enumerated files; and when
    every single-file extraction returns a boolean it does return one,
    each file counted once, as successful or as failed. *)
Theorem summary_counts_every_file (folder : PurePath.t) :
  path_exists w (PurePath.str folder) = true ->
  path_is_dir w (PurePath.str folder) = true ->
  Folder.find_video_files w folder <> [] ->
  let dextract := ThumbnailExtractor.extract_one w dself in
  let fextract := FFmpegThumbnailExtractor.extract_one w fself in
  let files := Folder.find_video_files w folder in
  let n := Z.of_nat (length files) in
  (forall s f,
      outcome (ThumbnailExtractor.process_folder w dself folder) = Ret (s, f) ->
      s + f = n /\ 0 <= s /\ 0 <= f) /\
  (forall s f,
      outcome (FFmpegThumbnailExtractor.process_folder w fself folder) = Ret (s, f) ->
      s + f = n /\ 0 <= s /\ 0 <= f) /\
  ((forall p, In p files -> returns_bool dextract p) ->
   exists s f,
     outcome (ThumbnailExtractor.process_folder w dself folder) = Ret (s, f) /\
     s = Z.of_nat (length (filter (succeeded dextract) files)) /\
     f = Z.of_nat (length (filter (failed dextract) files)) /\
     s + f = n) /\
  ((forall p, In p files -> returns_bool fextract p) ->
   exists s f,
     outcome (FFmpegThumbnailExtractor.process_folder w fself folder) = Ret (s, f) /\
     s = Z.of_nat (length (filter (succeeded fextract) files)) /\
     f = Z.of_nat (length (filter (failed fextract) files)) /\
     s + f = n).
Proof.
  intros Hex Hdir Hne dextract fextract files n.
  unfold ThumbnailExtractor.process_folder, FFmpegThumbnailExtractor.process_folder.
  rewrite !process_folder_enters_loop by assumption.
  fold files dextract fextract.
  repeat apply conj.
  - intros s f H. apply process_loop_sum in H. subst n. lia.
  - intros s f H. apply process_loop_sum in H. subst n. lia.
  - intros H. rewrite (process_loop_runs_every_file dextract files H).
    do 2 eexists. split; [reflexivity|]. split; [reflexivity|]. split; [reflexivity|].
    subst n. rewrite <- (counts_partition dextract files H). lia.
  - intros H. rewrite (process_loop_runs_every_file fextract files H).
    do 2 eexists. split; [reflexivity|]. split; [reflexivity|]. split; [reflexivity|].
    subst n. rewrite <- (counts_partition fextract files H). lia.
Qed.
End FolderSummary.

Lemma folder_continues_after_failure_witness :
  outcome (ThumbnailExtractor.process_folder posix jpeg_extractor
             (PurePath.Path "videos")) = Ret (3, 1) /\
  outcome (FFmpegThumbnailExtractor.process_folder posix ffmpeg_extractor
             (PurePath.Path "videos")) = Ret (3, 1).
Proof.
  pose (a := PurePath.Path "videos/a.mp4").
  pose (b := PurePath.Path "videos/b.avi").
  pose (c := PurePath.Path "videos/c.webm").
  pose (bad := PurePath.Path "videos/broken.mkv").
  assert (Hperm : Permutation (Folder.find_video_files posix (PurePath.Path "videos"))
                              [a; b; c; bad]).
  { change (Permutation [a; b; bad; c] [a; b; c; bad]).
    do 2 apply perm_skip. apply perm_swap. }
  destruct (folder_continues_after_failure posix jpeg_extractor ffmpeg_extractor)
    as (_ & _ & Hd & Hf).
  split.
  - exact (Hd (PurePath.Path "videos") a b c bad
              eq_refl eq_refl Hperm eq_refl eq_refl eq_refl eq_refl).
  - exact (Hf (PurePath.Path "videos") a b c bad
              (trace (FFmpegThumbnailExtractor.get_video_duration posix bad))
              eq_refl eq_refl Hperm eq_refl eq_refl eq_refl eq_refl).
Defined.

Lemma summary_counts_every_file_witness :
  exists s f,
    outcome (ThumbnailExtractor.process_folder posix jpeg_extractor
               (PurePath.Path "videos")) = Ret (s, f) /\
    s + f = 4.
Proof.
  destruct (summary_counts_every_file posix jpeg_extractor ffmpeg_extractor
              (PurePath.Path "videos") eq_refl eq_refl ltac:(discriminate))
    as (_ & _ & H & _).
  destruct H as (s & f & H1 & _ & _ & H2).
  { intros p Hp. vm_compute in Hp.
    destruct Hp as [<-|[<-|[<-|[<-|[]]]]]; eexists; reflexivity. }
  exists s, f. split; assumption.
Defined.

(** * Beyond the claims *)

Ltac unfold_run :=
  unfold print, tell, ret, raise, lift, bind, trace, outcome.

(** ** Folder extraction: the three ways to an empty summary *)

Section FolderEdges.
Variable w : World.
Variable output_folder : PurePath.t.
Variable extract : PurePath.t -> M bool.

(** X1. A folder that does not exist, is no directory, or holds no video
    gives the summary (0, 0) after one printed line, and no extraction
    is tried. *)
Theorem process_folder_nothing_to_do (folder : PurePath.t) :
  path_exists w (PurePath.str folder) = false \/
  path_is_dir w (PurePath.str folder) = false \/
  Folder.find_video_files w folder = [] ->
  let run := Folder.process_folder w output_folder extract folder in
  outcome run = Ret (0, 0) /\
  (exists msg, trace run = [EvPrint msg]) /\
  (path_exists w (PurePath.str folder) = false ->
   trace run = [EvPrint ("Error: Folder not found: " ++ PurePath.str folder)]).
Proof.
  intros H. cbv zeta. unfold Folder.process_folder.
  destruct (path_exists w (PurePath.str folder)) eqn:Hex; cbn [negb].
  - destruct (path_is_dir w (PurePath.str folder)) eqn:Hdir; cbn [negb].
    + destruct H as [H|[H|H]]; try discriminate. rewrite H.
      split; [reflexivity|]. split; [eexists; reflexivity|discriminate].
    + split; [reflexivity|]. split; [eexists; reflexivity|discriminate].
  - split; [reflexivity|]. split; [eexists; reflexivity|reflexivity].
Qed.

(** Whatever the folder, the summary that comes back has no negative
    counter. *)
Lemma process_folder_counters_nonneg (folder : PurePath.t) (s f : Z) :
  outcome (Folder.process_folder w output_folder extract folder) = Ret (s, f) ->
  0 <= s /\ 0 <= f.
Proof.
  unfold Folder.process_folder.
  destruct (path_exists w _); cbn [negb]; [|intros H; inversion H; lia].
  destruct (path_is_dir w _); cbn [negb]; [|intros H; inversion H; lia].
  destruct (Folder.find_video_files w folder) as [|v vs] eqn:E;
    [intros H; inversion H; lia|].
  unfold print, tell, bind, outcome.
  destruct (Folder.process_loop extract (v :: vs) 0 0) as [t r] eqn:El.
  cbn. intros ->.
  pose proof (process_loop_sum extract (v :: vs) 0 0 s f) as Hs.
  unfold outcome in Hs. rewrite El in Hs. specialize (Hs eq_refl). lia.
Qed.
End FolderEdges.

Lemma process_folder_nothing_to_do_witness :
  outcome (ThumbnailExtractor.process_folder posix jpeg_extractor
             (PurePath.Path "thumbnails")) = Ret (0, 0).
Proof.
  exact (proj1 (process_folder_nothing_to_do posix
                  (ThumbnailExtractor.output_folder jpeg_extractor)
                  (ThumbnailExtractor.extract_one posix jpeg_extractor)
                  (PurePath.Path "thumbnails") (or_intror (or_introl eq_refl)))).
Defined.

(** ** Lower case and endings *)

Lemma lower_char_dot (c : ascii) :
  Ascii.eqb (PyStr.lower_char c) "." = Ascii.eqb c ".".
Proof. destruct c as [[] [] [] [] [] [] [] []]; reflexivity. Qed.

Lemma lower_app (a b : string) :
  PyStr.lower (a ++ b) = PyStr.lower a ++ PyStr.lower b.
Proof. induction a as [|c r IH]; cbn; [reflexivity|now rewrite IH]. Qed.

Lemma lower_length (s : string) : String.length (PyStr.lower s) = String.length s.
Proof. induction s as [|c r IH]; cbn; [reflexivity|now rewrite IH]. Qed.

Lemma lower_drop (i : nat) (s : string) :
  PyStr.lower (PyStr.drop i s) = PyStr.drop i (PyStr.lower s).
Proof.
  revert s. induction i as [|i IH]; intros [|c r]; cbn; auto.
Qed.

Lemma rfind_dot_lower (s : string) :
  PyStr.rfind "." (PyStr.lower s) = PyStr.rfind "." s.
Proof.
  induction s as [|c r IH]; cbn [PyStr.lower PyStr.rfind]; [reflexivity|].
  now rewrite IH, lower_char_dot.
Qed.

Lemma suffix_index_lower (n : string) :
  PurePath.suffix_index (PyStr.lower n) = PurePath.suffix_index n.
Proof.
  unfold PurePath.suffix_index. now rewrite rfind_dot_lower, lower_length.
Qed.

Lemma endswith_app (pre e : string) : PyStr.endswith (pre ++ e) e = true.
Proof.
  induction pre as [|c r IH].
  - destruct e; cbn [String.append PyStr.endswith]; now rewrite String.eqb_refl.
  - cbn [String.append PyStr.endswith]. rewrite IH.
    now destruct (String.eqb _ _).
Qed.

Lemma endswith_lower (s e : string) :
  PyStr.endswith s e = true ->
  PyStr.endswith (PyStr.lower s) (PyStr.lower e) = true.
Proof.
  intros H. destruct (endswith_spec s e H) as [pre ->].
  rewrite lower_app. apply endswith_app.
Qed.

Lemma rfind_app_dot (pre rest : string) :
  PyStr.rfind "." rest = None ->
  PyStr.rfind "." (pre ++ String "." rest) = Some (String.length pre).
Proof.
  intros H. induction pre as [|c r IH].
  - cbn [String.append PyStr.rfind String.length]. now rewrite H.
  - cbn [String.append PyStr.rfind String.length]. now rewrite IH.
Qed.

Lemma drop_app_length (pre e : string) :
  PyStr.drop (String.length pre) (pre ++ e) = e.
Proof. induction pre as [|c r IH]; cbn; [now destruct e|exact IH]. Qed.

(** Every supported extension is a dot followed by at least one character,
    none of them a dot. *)
Lemma supported_shape (ext : string) :
  In ext SUPPORTED_FORMATS ->
  exists rest, ext = String "." rest /\ PyStr.rfind "." rest = None /\
               (1 <= String.length rest)%nat.
Proof.
  unfold SUPPORTED_FORMATS. cbn [In].
  intros [<-|[<-|[<-|[<-|[<-|[<-|[<-|[]]]]]]]]; eexists;
    (split; [reflexivity|split; [reflexivity|cbn; lia]]).
Qed.

Lemma supported_exclusive (pre ext : string) :
  In ext SUPPORTED_FORMATS -> pre <> EmptyString ->
  PyStr.mem (pre ++ ext) SUPPORTED_FORMATS = false.
Proof.
  intros Hext Hpre.
  destruct (PyStr.mem (pre ++ ext) SUPPORTED_FORMATS) eqn:E; [exfalso|reflexivity].
  unfold PyStr.mem in E. apply existsb_exists in E. destruct E as (x & Hx & E).
  apply String.eqb_eq in E.
  assert (Hall : forallb (fun a => forallb (fun b =>
            String.eqb a b || negb (PyStr.endswith a b)) SUPPORTED_FORMATS)
            SUPPORTED_FORMATS = true) by (vm_compute; reflexivity).
  rewrite forallb_forall in Hall. specialize (Hall x Hx).
  rewrite forallb_forall in Hall. specialize (Hall ext Hext).
  rewrite <- E, endswith_app in Hall. cbn in Hall. rewrite orb_false_r in Hall.
  apply String.eqb_eq in Hall.
  assert (Hlen : String.length (pre ++ ext) = String.length ext) by now rewrite Hall.
  rewrite append_length in Hlen. destruct pre; [congruence|cbn in Hlen; lia].
Qed.

Lemma last_snoc {A} (l : list A) (x d : A) : last (l ++ [x]) d = x.
Proof. apply last_last. Qed.

Lemma name_child (folder : PurePath.t) (n : string) :
  PurePath.name (child folder n) = n.
Proof. unfold PurePath.name, child. cbn [PurePath.tail]. apply last_last. Qed.

(** The extension check on a path depends on its name, lower-cased. *)
Lemma lower_suffix (p : PurePath.t) :
  PyStr.lower (PurePath.suffix p)
  = match PurePath.suffix_index (PyStr.lower (PurePath.name p)) with
    | Some i => PyStr.drop i (PyStr.lower (PurePath.name p))
    | None => EmptyString
    end.
Proof.
  unfold PurePath.suffix. rewrite suffix_index_lower.
  destruct (PurePath.suffix_index (PurePath.name p)); [apply lower_drop|reflexivity].
Qed.

Lemma enumerated_name_format_check (folder : PurePath.t) (n : string) :
  video_name n = true ->
  is_supported (child folder n)
  = negb (PyStr.mem (PyStr.lower n) SUPPORTED_FORMATS).
Proof.
  unfold video_name. intros H. apply existsb_exists in H.
  destruct H as (ext & Hext & H).
  destruct (endswith_spec _ _ H) as [pre Hn].
  destruct (supported_shape ext Hext) as (rest & -> & Hrest & Hlen).
  unfold is_supported. rewrite lower_suffix, name_child, Hn.
  unfold PurePath.suffix_index. rewrite (rfind_app_dot pre rest Hrest).
  rewrite append_length. cbn [String.length].
  destruct pre as [|c pre].
  - cbn [String.length Nat.ltb Nat.leb andb String.append].
    replace (PyStr.mem (String "." rest) SUPPORTED_FORMATS) with true.
    + reflexivity.
    + symmetry. unfold PyStr.mem. apply existsb_exists.
      exists (String "." rest). split; [exact Hext|apply String.eqb_refl].
  - rewrite supported_exclusive by (auto; discriminate).
    replace ((0 <? String.length (String c pre))%nat) with true
      by (symmetry; apply Nat.ltb_lt; cbn; lia).
    replace ((String.length (String c pre)
              <? String.length (String c pre) + S (String.length rest) - 1)%nat)
      with true by (symmetry; apply Nat.ltb_lt; cbn; lia).
    cbn [andb negb]. rewrite drop_app_length.
    unfold PyStr.mem. apply existsb_exists.
    exists (String "." rest). split; [exact Hext|apply String.eqb_refl].
Qed.

Lemma lower_endings (ext : string) :
  In ext SUPPORTED_FORMATS ->
  PyStr.lower ext = ext /\ PyStr.lower (PyStr.upper ext) = ext.
Proof.
  unfold SUPPORTED_FORMATS. cbn [In].
  intros [<-|[<-|[<-|[<-|[<-|[<-|[<-|[]]]]]]]]; split; reflexivity.
Qed.

Lemma flat_map_agree {A B} (f g : A -> list B) (l : list A) :
  (forall a, In a l -> f a = g a) -> flat_map f l = flat_map g l.
Proof.
  induction l as [|a l IH]; intros H; cbn [flat_map]; [reflexivity|].
  rewrite (H a (or_introl eq_refl)), IH; [reflexivity|].
  intros b Hb. apply H. now right.
Qed.

Section Enumeration.
Variable w : World.
Variable folder : PurePath.t.

Lemma glob_spec (e : string) (p : PurePath.t) :
  In p (Folder.glob w folder e) <->
  exists n, In n (listdir w (PurePath.str folder)) /\
            Folder.matches_star w e n = true /\ p = child folder n.
Proof.
  unfold Folder.glob. rewrite in_map_iff. split.
  - intros (n & <- & Hn). apply filter_In in Hn. exists n. tauto.
  - intros (n & Hn & Hm & ->). exists n. split; [reflexivity|].
    apply filter_In. tauto.
Qed.

Lemma matches_star_video_name (ext e n : string) :
  In ext SUPPORTED_FORMATS -> e = ext \/ e = PyStr.upper ext ->
  Folder.matches_star w e n = true ->
  PyStr.endswith (PyStr.lower n) ext = true.
Proof.
  intros Hext He Hm. destruct (lower_endings ext Hext) as [H1 H2].
  assert (Hle : PyStr.lower e = ext) by (destruct He as [-> | ->]; assumption).
  unfold Folder.matches_star in Hm.
  destruct (glob_ignorecase w).
  - now rewrite Hle in Hm.
  - apply endswith_lower in Hm. now rewrite Hle in Hm.
Qed.

(** X2. Enumeration is not recursive and agrees with the extension check of
    single-file extraction, up to names that are nothing but an extension. *)
Theorem enumerated_files_format_check (p : PurePath.t) :
  In p (Folder.find_video_files w folder) ->
  exists n,
    In n (listdir w (PurePath.str folder)) /\
    p = child folder n /\
    PurePath.name p = n /\
    video_name n = true /\
    is_supported p = negb (PyStr.mem (PyStr.lower n) SUPPORTED_FORMATS).
Proof.
  unfold Folder.find_video_files. intros H.
  apply in_flat_map in H. destruct H as (ext & Hext & H).
  apply in_app_or in H.
  assert (Hg : exists e, (e = ext \/ e = PyStr.upper ext) /\
                         In p (Folder.glob w folder e)).
  { destruct H as [H|H]; [exists ext|exists (PyStr.upper ext)]; split; auto. }
  destruct Hg as (e & He & Hp).
  apply glob_spec in Hp. destruct Hp as (n & Hn & Hm & ->).
  assert (Hv : video_name n = true).
  { unfold video_name. apply existsb_exists. exists ext. split; [exact Hext|].
    eapply matches_star_video_name; eauto. }
  exists n. repeat split; auto.
  - apply name_child.
  - now apply enumerated_name_format_check.
Qed.

(** X3. Where patterns are matched ignoring case, the upper-case pattern finds
    what the lower-case one found: every match is listed twice. *)
Theorem ignorecase_enumeration_doubles :
  glob_ignorecase w = true ->
  Folder.find_video_files w folder
  = flat_map (fun ext => (Folder.glob w folder ext ++ Folder.glob w folder ext)%list)
             SUPPORTED_FORMATS /\
  length (Folder.find_video_files w folder)
  = (2 * length (flat_map (Folder.glob w folder) SUPPORTED_FORMATS))%nat /\
  (forall n, In n (listdir w (PurePath.str folder)) ->
             video_name n = true ->
             In (child folder n) (Folder.find_video_files w folder)).
Proof.
  intros Hic.
  assert (Hup : forall ext, In ext SUPPORTED_FORMATS ->
                Folder.glob w folder (PyStr.upper ext) = Folder.glob w folder ext).
  { intros ext Hext. unfold Folder.glob. f_equal. apply filter_ext. intros n.
    unfold Folder.matches_star. rewrite Hic.
    destruct (lower_endings ext Hext) as [-> ->]. reflexivity. }
  assert (Heq : Folder.find_video_files w folder
                = flat_map (fun ext => (Folder.glob w folder ext
                                        ++ Folder.glob w folder ext)%list)
                           SUPPORTED_FORMATS).
  { unfold Folder.find_video_files. apply flat_map_agree.
    intros ext Hext. now rewrite (Hup ext Hext). }
  split; [exact Heq|]. split.
  - rewrite Heq. generalize SUPPORTED_FORMATS as l.
    induction l as [|ext l IH]; cbn [flat_map]; [reflexivity|].
    rewrite !length_app, IH. lia.
  - intros n Hn Hv. rewrite Heq. unfold video_name in Hv.
    apply existsb_exists in Hv. destruct Hv as (ext & Hext & Hv).
    apply in_flat_map. exists ext. split; [exact Hext|].
    apply in_or_app. left. apply glob_spec. exists n.
    repeat split; auto. unfold Folder.matches_star. rewrite Hic.
    destruct (lower_endings ext Hext) as [-> _]. exact Hv.
Qed.

Lemma child_injective (a b : string) : child folder a = child folder b -> a = b.
Proof.
  unfold child. intros H. inversion H as [H']. apply app_inv_head in H'. congruence.
Qed.

(** X4. Where patterns are matched with regard to case, a name is enumerated
    exactly when it ends in an extension written all in lower or all in
    upper case, and no directory entry is enumerated twice. *)
Theorem case_sensitive_enumeration_exact (n : string) :
  glob_ignorecase w = false ->
  (In (child folder n) (Folder.find_video_files w folder) <->
   In n (listdir w (PurePath.str folder)) /\
   existsb (PyStr.endswith n) glob_endings = true) /\
  (NoDup (listdir w (PurePath.str folder)) ->
   NoDup (Folder.find_video_files w folder)).
Proof.
  intros Hcs.
  split; [|now apply case_sensitive_enumeration_NoDup].
  rewrite (find_video_files_case_sensitive w folder Hcs).
  fold (child folder). rewrite in_map_iff. split.
  - intros (m & Hm & H). apply child_injective in Hm. subst m.
    apply in_flat_map in H. destruct H as (e & He & H).
    apply filter_In in H. split; [tauto|].
    apply existsb_exists. exists e. tauto.
  - intros [Hn H]. apply existsb_exists in H. destruct H as (e & He & H).
    exists n. split; [reflexivity|]. apply in_flat_map. exists e.
    split; [exact He|]. apply filter_In. tauto.
Qed.
End Enumeration.

Lemma case_sensitive_enumeration_exact_witness :
  is_supported (child (PurePath.Path "videos") "clip.Mp4") = true /\
  ~ In (child (PurePath.Path "videos") "clip.Mp4")
       (Folder.find_video_files posix (PurePath.Path "videos")).
Proof.
  split; [reflexivity|].
  intros H.
  apply (proj1 (proj1 (case_sensitive_enumeration_exact posix (PurePath.Path "videos")
                         "clip.Mp4" eq_refl))) in H.
  destruct H as [_ H]. discriminate H.
Defined.

Lemma enumerated_files_format_check_witness :
  exists n,
    In n (listdir CliSample.bare_extension "videos") /\
    is_supported (child (PurePath.Path "videos") n) = false.
Proof.
  destruct (enumerated_files_format_check CliSample.bare_extension
              (PurePath.Path "videos") (child (PurePath.Path "videos") ".mp4")
              (or_introl eq_refl))
    as (n & Hn & Hp & _ & _ & Hs).
  apply child_injective in Hp. subst n.
  exists ".mp4". split; [exact Hn|exact Hs].
Defined.

Lemma ignorecase_enumeration_doubles_witness :
  length (Folder.find_video_files windows (PurePath.Path "videos")) = 2%nat.
Proof.
  exact (proj1 (proj2 (ignorecase_enumeration_doubles windows
                         (PurePath.Path "videos") eq_refl))).
Defined.

(** ** The duration probe *)

Section Probe.
Variable w : World.
Variable p : PurePath.t.

Lemma contains_raises (k : string) (d : json) (e : exn) :
  PyJson.contains k d = Raise e -> e = TypeError.
Proof. destruct d; cbn; intros H; inversion H; reflexivity. Qed.

(** After [k in d] has answered [True], [d[k]] raises no [KeyError]. *)
Lemma getitem_after_contains (k : string) (d : json) (e : exn) :
  PyJson.contains k d = Ret true ->
  PyJson.getitem d k = Raise e -> e = TypeError.
Proof.
  destruct d; cbn; try (intros _ H; inversion H; reflexivity).
  destruct (PyJson.lookup k kv); [discriminate|]. intros H. inversion H.
Qed.

Lemma py_float_raises (v : json) (e : exn) :
  FFmpegThumbnailExtractor.py_float w v = Raise e ->
  e = TypeError \/ e = ValueError.
Proof.
  destruct v; cbn; intros H; try (inversion H; auto; fail).
  destruct (float_of_str w s); inversion H; auto.
Qed.

Lemma probe_escapes :
  let run := FFmpegThumbnailExtractor.get_video_duration w p in
  commands (trace run) = [FFmpegThumbnailExtractor.ffprobe_cmd p] /\
  match outcome run with
  | Ret _ => True
  | Raise e =>
      (run_process w (FFmpegThumbnailExtractor.ffprobe_cmd p) = SpawnError e \/
       e = TypeError) /\
      e <> JSONDecodeError /\ e <> ValueError /\
      forall stderr, e <> CalledProcessError stderr
  end.
Proof.
  cbv zeta.
  unfold FFmpegThumbnailExtractor.get_video_duration,
    FFmpegThumbnailExtractor.subprocess_run.
  unfold print, tell, ret, raise, lift, bind, try_except, trace, outcome.
  destruct (run_process w (FFmpegThumbnailExtractor.ffprobe_cmd p))
    as [e|rc out err]; simp.
  - destruct e; simp; (split; [reflexivity|]);
      first [exact I | repeat split; auto; intros; discriminate].
  - destruct (rc =? 0); simp; [|split; [reflexivity|exact I]].
    destruct (json_loads w out) as [data|]; simp; [|split; [reflexivity|exact I]].
    destruct (PyJson.contains "format" data) as [[|]|e] eqn:Hc; simp;
      try (split; [reflexivity|exact I]).
    + destruct (PyJson.getitem data "format") as [fmt|e] eqn:Hg; simp.
      * destruct (PyJson.contains "duration" fmt) as [[|]|e] eqn:Hc'; simp;
          try (split; [reflexivity|exact I]).
        -- destruct (PyJson.getitem fmt "duration") as [d|e] eqn:Hg'; simp.
           ++ destruct (FFmpegThumbnailExtractor.py_float w d) as [x|e] eqn:Hf;
                simp; [split; [reflexivity|exact I]|].
              destruct (py_float_raises d e Hf) as [-> | ->]; simp;
                (split; [reflexivity|]);
                first [exact I | repeat split; auto; intros; discriminate].
           ++ rewrite (getitem_after_contains _ _ _ Hc' Hg'). simp.
              split; [reflexivity|]. repeat split; auto; intros; discriminate.
        -- rewrite (contains_raises _ _ _ Hc'). simp.
           split; [reflexivity|]. repeat split; auto; intros; discriminate.
      * rewrite (getitem_after_contains _ _ _ Hc Hg). simp.
        split; [reflexivity|]. repeat split; auto; intros; discriminate.
    + rewrite (contains_raises _ _ _ Hc). simp.
      split; [reflexivity|]. repeat split; auto; intros; discriminate.
Qed.

Lemma probe_commands :
  commands (trace (FFmpegThumbnailExtractor.get_video_duration w p))
  = [FFmpegThumbnailExtractor.ffprobe_cmd p].
Proof. exact (proj1 probe_escapes). Qed.


(** X6. A probe that exits with a non-zero status, prints something that is
    not JSON, or prints an object without [format] or without
    [format.duration], gives [None]. *)
Theorem probe_failure_is_None (rc : Z) (out err : string) :
  run_process w (FFmpegThumbnailExtractor.ffprobe_cmd p) = Completed rc out err ->
  rc <> 0 \/
  json_loads w out = None \/
  (exists kv, json_loads w out = Some (JObj kv) /\
              PyJson.lookup "format" kv = None) \/
  (exists kv kv', json_loads w out = Some (JObj kv) /\
                  PyJson.lookup "format" kv = Some (JObj kv') /\
                  PyJson.lookup "duration" kv' = None) ->
  outcome (FFmpegThumbnailExtractor.get_video_duration w p) = Ret None.
Proof.
  intros Hrun H.
  unfold FFmpegThumbnailExtractor.get_video_duration,
    FFmpegThumbnailExtractor.subprocess_run.
  rewrite Hrun.
  unfold print, tell, ret, raise, lift, bind, try_except, trace, outcome.
  destruct (rc =? 0) eqn:Hrc; simp; [|reflexivity].
  apply Z.eqb_eq in Hrc.
  destruct H as [H|[H|[(kv & H1 & H2)|(kv & kv' & H1 & H2 & H3)]]].
  - contradiction.
  - rewrite H. reflexivity.
  - rewrite H1. simp. rewrite H2. reflexivity.
  - rewrite H1. simp. rewrite H2. simp. rewrite H3. reflexivity.
Qed.

(** X7. The output ffprobe gives for a sound file: an object whose
    [format.duration] is a string that [float] accepts. *)
Theorem probe_reads_duration (out err : string) (kv kv' : list (string * json))
        (s : string) (x : pyfloat) :
  run_process w (FFmpegThumbnailExtractor.ffprobe_cmd p) = Completed 0 out err ->
  json_loads w out = Some (JObj kv) ->
  PyJson.lookup "format" kv = Some (JObj kv') ->
  PyJson.lookup "duration" kv' = Some (JStr s) ->
  float_of_str w s = Some x ->
  FFmpegThumbnailExtractor.get_video_duration w p
  = ([EvSpawn (FFmpegThumbnailExtractor.ffprobe_cmd p);
      EvExit (FFmpegThumbnailExtractor.ffprobe_cmd p) 0], Ret (Some x)).
Proof.
  intros Hrun Hj Hf Hd Hx.
  unfold FFmpegThumbnailExtractor.get_video_duration,
    FFmpegThumbnailExtractor.subprocess_run.
  rewrite Hrun.
  unfold print, tell, ret, raise, lift, bind, try_except, trace, outcome.
  simp. rewrite Hj. simp. rewrite Hf. simp. rewrite Hd. simp. rewrite Hx.
  reflexivity.
Qed.
End Probe.


Lemma probe_failure_is_None_witness :
  outcome (FFmpegThumbnailExtractor.get_video_duration posix
             (PurePath.Path "videos/broken.mkv")) = Ret None.
Proof.
  apply (probe_failure_is_None posix (PurePath.Path "videos/broken.mkv")
           1 EmptyString "Invalid data found when processing input").
  - vm_compute. reflexivity.
  - left. discriminate.
Defined.

Lemma probe_reads_duration_witness :
  outcome (FFmpegThumbnailExtractor.get_video_duration posix
             (PurePath.Path "videos/a.mp4")) = Ret (Some (Fin (333667 # 100000))).
Proof.
  rewrite (probe_reads_duration posix (PurePath.Path "videos/a.mp4")
             probe_stdout EmptyString
             [("format", JObj [("duration", JStr "3.336670")])]
             [("duration", JStr "3.336670")] "3.336670" (Fin (333667 # 100000)));
    vm_compute; reflexivity.
Defined.

(** ** The process backend past the probe *)

(** X8. The seek position is never negative and never NaN, whatever float the
    probe produced. *)
Theorem timestamp_never_negative (d : pyfloat) :
  match FFmpegThumbnailExtractor.timestamp d with
  | Fin ts => (0 <= ts)%Q
  | PInf => d = PInf
  | NInf | NaN => False
  end.
Proof.
  unfold FFmpegThumbnailExtractor.timestamp, PyFloat.max_zero, PyFloat.sub_one,
    PyFloat.gt_zero.
  destruct d as [q| | |]; cbn; try lra; try reflexivity.
  destruct (Qle_bool (q - 1) 0) eqn:E; cbn; [lra|].
  apply Qle_bool_false in E. lra.
Qed.

Section ProcessRun.
Variable w : World.
Variable self : FFmpegThumbnailExtractor.t.
Variable output_name : option string.
Variable quality : Z.
Variable p : PurePath.t.

(** X9. Without a positive duration the method gives up before ffmpeg. *)
Theorem no_duration_no_ffmpeg (t0 : list event) (d : option pyfloat) :
  path_exists w (PurePath.str p) = true ->
  is_supported p = true ->
  FFmpegThumbnailExtractor.get_video_duration w p = (t0, Ret d) ->
  match d with
  | None => True
  | Some x => PyFloat.le_zero x = true
  end ->
  let run := FFmpegThumbnailExtractor.extract_thumbnail w self p output_name quality in
  outcome run = Ret false /\
  commands (trace run) = [FFmpegThumbnailExtractor.ffprobe_cmd p] /\
  ffmpeg_outputs (trace run) = [].
Proof.
  intros Hex Hsup Hd Hle.
  pose proof (probe_commands w p) as Hc.
  pose proof (probe_writes_nothing w p) as Hw.
  rewrite Hd in Hc, Hw. cbn [trace fst] in Hc, Hw.
  cbv zeta. unfold FFmpegThumbnailExtractor.extract_thumbnail, is_supported in *.
  rewrite Hex, Hsup, Hd.
  unfold print, tell, ret, bind, trace, outcome. simp.
  destruct d as [x|]; [rewrite Hle|]; simp;
    (split; [reflexivity|]);
    unfold commands, ffmpeg_outputs in *; rewrite !flat_map_app, Hc, Hw;
    split; reflexivity.
Qed.

End ProcessRun.

Lemma no_duration_no_ffmpeg_witness :
  commands (trace (FFmpegThumbnailExtractor.extract_thumbnail posix ffmpeg_extractor
                     (PurePath.Path "videos/broken.mkv") None 2))
  = [FFmpegThumbnailExtractor.ffprobe_cmd (PurePath.Path "videos/broken.mkv")].
Proof.
  refine (proj1 (proj2 (no_duration_no_ffmpeg posix ffmpeg_extractor None 2
           (PurePath.Path "videos/broken.mkv")
           (trace (FFmpegThumbnailExtractor.get_video_duration posix
                     (PurePath.Path "videos/broken.mkv")))
           None _ _ _ I))); vm_compute; reflexivity.
Defined.

(** ** The decode backend past the open *)


Section DecodeRun.
Variable w : World.
Variable self : ThumbnailExtractor.t.
Variable output_name : option string.
Variable p : PurePath.t.

(** X11. One capture at most, one seek, one read, one write, in that order, and
    the release last. *)
Theorem decode_backend_events_shape :
  let run := ThumbnailExtractor.extract_thumbnail w self p output_name in
  let path := PurePath.str p in
  let out := PurePath.str
               (PurePath.joinpath (ThumbnailExtractor.output_folder self)
                  (ThumbnailExtractor.output_file_name self p output_name)) in
  backend_events (trace run) = [] \/
  backend_events (trace run) = [EvVideoCapture path false] \/
  backend_events (trace run) = [EvVideoCapture path true; EvRelease] \/
  (exists t, backend_events (trace run)
             = [EvVideoCapture path true; EvSeek t; EvRead; EvRelease]) \/
  (exists t, backend_events (trace run)
             = [EvVideoCapture path true; EvSeek t; EvRead;
                EvImwrite out (writer_param self); EvRelease]).
Proof.
  cbv zeta.
  unfold ThumbnailExtractor.extract_thumbnail, ThumbnailExtractor.VideoCapture,
    ThumbnailExtractor.extract_body, ThumbnailExtractor.imwrite, writer_param.
  unfold print, tell, ret, raise, lift, bind, try_except, try_finally,
    trace, outcome.
  simp.
  repeat step;
    first [ left; reflexivity
          | right; left; reflexivity
          | right; right; left; reflexivity
          | right; right; right; left; eexists; reflexivity
          | right; right; right; right; eexists; reflexivity ].
Qed.

(** X13. A frame rate or a frame count that is NaN or infinite ends in [False]:
    the capture is opened and released, nothing is sought or written. *)
Theorem decode_non_finite_properties (cap : Capture) :
  path_exists w (PurePath.str p) = true ->
  is_supported p = true ->
  cv_open w (PurePath.str p) = Some cap ->
  not_finite (cap_fps cap) = true \/ not_finite (cap_frame_count cap) = true ->
  let run := ThumbnailExtractor.extract_thumbnail w self p output_name in
  outcome run = Ret false /\
  backend_events (trace run) = [EvVideoCapture (PurePath.str p) true; EvRelease].
Proof.
  intros Hex Hsup Hopen Hnf. cbv zeta.
  unfold ThumbnailExtractor.extract_thumbnail, ThumbnailExtractor.VideoCapture,
    ThumbnailExtractor.extract_body, ThumbnailExtractor.imwrite, is_supported in *.
  rewrite Hex, Hsup, Hopen.
  unfold print, tell, ret, raise, lift, bind, try_except, try_finally,
    trace, outcome.
  simp.
  destruct (cap_frame_count cap) as [C| | |], (cap_fps cap) as [F| | |];
    cbn [not_finite] in Hnf; try (destruct Hnf; discriminate); simp;
    try (split; reflexivity);
    destruct (PyFloat.trunc C =? 0); simp; split; reflexivity.
Qed.
End DecodeRun.

(** X14. The frame sought is a frame of the video exactly when the rate is at
    least one frame per second; it is the first frame when the video has
    no more frames than one second holds. *)
Theorem decode_target_bounds (F : Q) (N : Z) :
  (0 < F)%Q -> 0 < N ->
  let target := ThumbnailExtractor.target_frame N (PyFloat.trunc F) in
  0 <= target <= N /\
  (target < N <-> (1 <= F)%Q) /\
  (N <= PyFloat.trunc F -> target = 0).
Proof.
  intros HF HN. cbv zeta. unfold ThumbnailExtractor.target_frame.
  destruct (trunc_bounds F HF) as (Hlo & Hhi & Hk).
  set (k := PyFloat.trunc F) in *.
  assert (Hone : (1 <= F)%Q <-> 1 <= k).
  { split.
    - intros H.
      assert (H' : (inject_Z 1 < inject_Z (k + 1))%Q)
        by (rewrite inject_Z_plus; change (inject_Z 1) with 1%Q; lra).
      rewrite <- Zlt_Qlt in H'. lia.
    - intros H. rewrite Zle_Qle in H. change (inject_Z 1) with 1%Q in H. lra. }
  rewrite Hone. lia.
Qed.

Lemma decode_non_finite_properties_witness :
  outcome (ThumbnailExtractor.extract_thumbnail CliSample.nan_rate jpeg_extractor
             (PurePath.Path "videos/a.mp4") None) = Ret false.
Proof.
  exact (proj1 (decode_non_finite_properties CliSample.nan_rate jpeg_extractor None
                  (PurePath.Path "videos/a.mp4") CliSample.nan_clip
                  eq_refl eq_refl eq_refl (or_introl eq_refl))).
Defined.

Lemma decode_target_bounds_witness :
  0 <= ThumbnailExtractor.target_frame 100 (PyFloat.trunc (2997 # 100)) <= 100.
Proof.
  exact (proj1 (decode_target_bounds (2997 # 100) 100 eq_refl eq_refl)).
Defined.

(** ** Constructors *)

(** X15. The decode extractor is built exactly for the formats [jpeg] and [png],
    in any case; anything else raises [ValueError], after the output
    folder has been created all the same. *)
Theorem decode_init_spec (folder fmt : string) :
  let run := ThumbnailExtractor.init folder fmt in
  trace run = [EvMkdir (PurePath.str (PurePath.Path folder))] /\
  (PyStr.lower fmt = "jpeg" ->
   outcome run = Ret {| ThumbnailExtractor.output_folder := PurePath.Path folder;
                        ThumbnailExtractor.image_format := "jpeg";
                        ThumbnailExtractor.file_extension := "jpg" |}) /\
  (PyStr.lower fmt = "png" ->
   outcome run = Ret {| ThumbnailExtractor.output_folder := PurePath.Path folder;
                        ThumbnailExtractor.image_format := "png";
                        ThumbnailExtractor.file_extension := "png" |}) /\
  (PyStr.lower fmt <> "jpeg" -> PyStr.lower fmt <> "png" ->
   outcome run = Raise ValueError).
Proof.
  cbv zeta. unfold ThumbnailExtractor.init, PyStr.mem.
  unfold tell, raise, ret, bind, trace, outcome. cbn [existsb].
  destruct (String.eqb (PyStr.lower fmt) "jpeg") eqn:E1;
    destruct (String.eqb (PyStr.lower fmt) "png") eqn:E2;
    rewrite ?String.eqb_eq, ?String.eqb_neq in *; cbn;
    repeat split; try congruence; intros;
    try (rewrite E1 in *; discriminate); try (rewrite E2 in *; discriminate);
    try congruence.
Qed.

Section ProcessInit.
Variable w : World.
Variable folder : string.


Lemma init_without_ffmpeg :
  run_process w version_cmd = SpawnError FileNotFoundError \/
  (exists rc out err, run_process w version_cmd = Completed rc out err /\ rc <> 0) ->
  commands (trace (FFmpegThumbnailExtractor.init w folder)) = [version_cmd] /\
  mkdirs (trace (FFmpegThumbnailExtractor.init w folder))
  = [PurePath.str (PurePath.Path folder)] /\
  outcome (FFmpegThumbnailExtractor.init w folder) = Raise (SystemExit 1).
Proof.
  intros H.
  unfold FFmpegThumbnailExtractor.init, FFmpegThumbnailExtractor.check_ffmpeg,
    FFmpegThumbnailExtractor.subprocess_run.
  fold version_cmd.
  unfold print, tell, ret, raise, lift, bind, try_except, trace, outcome.
  destruct H as [H|(rc & out & err & H & Hne)]; rewrite H; simp.
  - repeat split.
  - apply Z.eqb_neq in Hne. rewrite Hne. simp. repeat split.
Qed.

(** X16. The process extractor is built only when [ffmpeg -version] runs and
    exits with status 0. When ffmpeg cannot be found, or exits with
    another status, the program is ended with status 1; any other
    failure to start it propagates. Nothing but [ffmpeg -version] is run:
    ffprobe is not looked for. *)
Theorem process_init_spec :
  let run := FFmpegThumbnailExtractor.init w folder in
  commands (trace run) = [version_cmd] /\
  mkdirs (trace run) = [PurePath.str (PurePath.Path folder)] /\
  ((exists out err, run_process w version_cmd = Completed 0 out err) ->
   outcome run = Ret {| FFmpegThumbnailExtractor.output_folder := PurePath.Path folder |}) /\
  (run_process w version_cmd = SpawnError FileNotFoundError \/
   (exists rc out err, run_process w version_cmd = Completed rc out err /\ rc <> 0) ->
   outcome run = Raise (SystemExit 1)) /\
  (forall e, run_process w version_cmd = SpawnError e ->
             e <> FileNotFoundError ->
             (forall stderr, e <> CalledProcessError stderr) ->
             outcome run = Raise e).
Proof.
  cbv zeta.
  unfold FFmpegThumbnailExtractor.init, FFmpegThumbnailExtractor.check_ffmpeg,
    FFmpegThumbnailExtractor.subprocess_run.
  fold version_cmd.
  unfold print, tell, ret, raise, lift, bind, try_except, trace, outcome.
  destruct (run_process w version_cmd) as [e|rc out err]; simp.
  - destruct e; simp; repeat split; try reflexivity;
      try (intros (? & ? & H); discriminate);
      try (intros [H|(? & ? & ? & H & _)]; discriminate);
      intros e' H Hne Hcp; inversion H; subst; try congruence.
  - destruct (rc =? 0) eqn:Hrc; simp.
    + apply Z.eqb_eq in Hrc. subst rc.
      repeat split; try reflexivity.
      * intros [H|(rc & ? & ? & H & Hne)]; [discriminate|].
        inversion H. congruence.
      * intros e H. discriminate.
    + apply Z.eqb_neq in Hrc.
      repeat split; try reflexivity.
      * intros (? & ? & H). inversion H. congruence.
      * intros e H. discriminate.
Qed.
End ProcessInit.

Lemma decode_init_spec_witness :
  outcome (ThumbnailExtractor.init "thumbnails" "PNG")
  = Ret {| ThumbnailExtractor.output_folder := PurePath.Path "thumbnails";
           ThumbnailExtractor.image_format := "png";
           ThumbnailExtractor.file_extension := "png" |}.
Proof.
  exact (proj1 (proj2 (proj2 (decode_init_spec "thumbnails" "PNG"))) eq_refl).
Defined.

Lemma process_init_spec_witness :
  outcome (FFmpegThumbnailExtractor.init CliSample.without_ffmpeg "thumbnails")
  = Raise (SystemExit 1).
Proof.
  exact (proj1 (proj2 (proj2 (proj2
           (process_init_spec CliSample.without_ffmpeg "thumbnails"))))
           (or_introl eq_refl)).
Defined.

(** ** The entry points *)


Section DecodeMain.
Variable w : World.
Variable path_is_file : string -> bool.
Variable args : DecodeCli.Args.
Variable self : ThumbnailExtractor.t.

(** X17. The exit status of thumbnail_extractor.py: the program ends normally
    exactly on full success, and with status 1 when the input is missing,
    is neither file nor directory, the single extraction returns [False],
    or a folder run counts a failure. A missing input ends the program
    before the output folder is created. *)
Theorem decode_main_exit_status :
  outcome (ThumbnailExtractor.init (DecodeCli.output args) (DecodeCli.format args))
  = Ret self ->
  let input_path := PurePath.Path (DecodeCli.input args) in
  let run := DecodeCli.main w path_is_file args in
  let single := ThumbnailExtractor.extract_thumbnail w self input_path None in
  let folder := ThumbnailExtractor.process_folder w self input_path in
  (path_exists w (PurePath.str input_path) = false ->
   run = ([EvPrint ("Error: Path not found: " ++ PurePath.str input_path)],
          Raise (SystemExit 1))) /\
  (path_exists w (PurePath.str input_path) = true ->
   path_is_file (PurePath.str input_path) = true ->
   (outcome run = Ret tt <-> outcome single = Ret true) /\
   (outcome single = Ret false -> outcome run = Raise (SystemExit 1))) /\
  (path_exists w (PurePath.str input_path) = true ->
   path_is_file (PurePath.str input_path) = false ->
   path_is_dir w (PurePath.str input_path) = true ->
   (outcome run = Ret tt <-> exists s, outcome folder = Ret (s, 0)) /\
   (forall s f, outcome folder = Ret (s, f) -> 0 < f ->
                outcome run = Raise (SystemExit 1))) /\
  (path_exists w (PurePath.str input_path) = true ->
   path_is_file (PurePath.str input_path) = false ->
   path_is_dir w (PurePath.str input_path) = false ->
   outcome run = Raise (SystemExit 1)).
Proof.
  intros Hinit. cbv zeta. unfold DecodeCli.main.
  unfold outcome in Hinit.
  destruct (ThumbnailExtractor.init _ _) as [ti ri]. cbn [snd] in Hinit. subst ri.
  repeat apply conj.
  - intros ->. reflexivity.
  - intros -> ->. unfold_run. simp.
    destruct (ThumbnailExtractor.extract_thumbnail w self _ None) as [t [[|]|e]];
      simp; repeat split; intros; try discriminate; reflexivity.
  - intros -> -> ->. unfold_run. simp.
    pose proof (process_folder_counters_nonneg w
                  (ThumbnailExtractor.output_folder self)
                  (ThumbnailExtractor.extract_one w self)
                  (PurePath.Path (DecodeCli.input args))) as Hnn.
    unfold ThumbnailExtractor.process_folder, outcome in *.
    destruct (Folder.process_folder w _ _ _) as [t [[s f]|e]]; simp.
    + specialize (Hnn s f eq_refl).
      destruct (0 <? f) eqn:Hf; simp.
      * apply Z.ltb_lt in Hf. split.
        -- split; [discriminate|]. intros (s' & H). inversion H. lia.
        -- reflexivity.
      * apply Z.ltb_ge in Hf. split.
        -- split; [|reflexivity]. intros _. exists s. do 2 f_equal. lia.
        -- intros s' f' H Hpos. inversion H. lia.
    + split.
      * split; [discriminate|intros (s & H); discriminate].
      * intros s f H. discriminate.
  - intros -> -> ->. unfold_run. simp. reflexivity.
Qed.
End DecodeMain.

Section ProcessMain.
Variable w : World.
Variable path_is_file : string -> bool.
Variable args : ProcessCli.Args.

(** X18. The exit status of thumbnail_extractor_ffmpeg.py, once the extractor
    has been built. *)
Theorem process_main_exit_status (self : FFmpegThumbnailExtractor.t) :
  outcome (FFmpegThumbnailExtractor.init w (ProcessCli.output args)) = Ret self ->
  let input_path := PurePath.Path (ProcessCli.input args) in
  let run := ProcessCli.main w path_is_file args in
  let single := FFmpegThumbnailExtractor.extract_thumbnail
                  w self input_path None (ProcessCli.quality args) in
  let folder := FFmpegThumbnailExtractor.process_folder w self input_path in
  (path_exists w (PurePath.str input_path) = true ->
   path_is_file (PurePath.str input_path) = true ->
   (outcome run = Ret tt <-> outcome single = Ret true) /\
   (outcome single = Ret false -> outcome run = Raise (SystemExit 1))) /\
  (path_exists w (PurePath.str input_path) = true ->
   path_is_file (PurePath.str input_path) = false ->
   path_is_dir w (PurePath.str input_path) = true ->
   (outcome run = Ret tt <-> exists s, outcome folder = Ret (s, 0)) /\
   (forall s f, outcome folder = Ret (s, f) -> 0 < f ->
                outcome run = Raise (SystemExit 1))) /\
  (path_exists w (PurePath.str input_path) = true ->
   path_is_file (PurePath.str input_path) = false ->
   path_is_dir w (PurePath.str input_path) = false ->
   outcome run = Raise (SystemExit 1)).
Proof.
  intros Hinit. cbv zeta. unfold ProcessCli.main.
  unfold outcome in Hinit.
  destruct (FFmpegThumbnailExtractor.init w _) as [ti ri].
  cbn [snd] in Hinit. subst ri.
  repeat apply conj.
  - intros -> ->. unfold_run. simp.
    destruct (FFmpegThumbnailExtractor.extract_thumbnail w self _ None _)
      as [t [[|]|e]];
      simp; repeat split; intros; try discriminate; reflexivity.
  - intros -> -> ->. unfold_run. simp.
    pose proof (process_folder_counters_nonneg w
                  (FFmpegThumbnailExtractor.output_folder self)
                  (FFmpegThumbnailExtractor.extract_one w self)
                  (PurePath.Path (ProcessCli.input args))) as Hnn.
    unfold FFmpegThumbnailExtractor.process_folder, outcome in *.
    destruct (Folder.process_folder w _ _ _) as [t [[s f]|e]]; simp.
    + specialize (Hnn s f eq_refl).
      destruct (0 <? f) eqn:Hf; simp.
      * apply Z.ltb_lt in Hf. split.
        -- split; [discriminate|]. intros (s' & H). inversion H. lia.
        -- reflexivity.
      * apply Z.ltb_ge in Hf. split.
        -- split; [|reflexivity]. intros _. exists s. do 2 f_equal. lia.
        -- intros s' f' H Hpos. inversion H. lia.
    + split.
      * split; [discriminate|intros (s & H); discriminate].
      * intros s f H. discriminate.
  - intros -> -> ->. unfold_run. simp. reflexivity.
Qed.

(** X19. Nothing is probed or extracted before the input is known to exist and
    ffmpeg is known to run: a missing input ends the program before
    anything else happens, a missing or failing ffmpeg after the output
    folder has been created and before any file is touched. *)
Theorem process_main_startup_checks :
  let input_path := PurePath.Path (ProcessCli.input args) in
  let run := ProcessCli.main w path_is_file args in
  (path_exists w (PurePath.str input_path) = false ->
   run = ([EvPrint ("Error: Path not found: " ++ PurePath.str input_path)],
          Raise (SystemExit 1))) /\
  (path_exists w (PurePath.str input_path) = true ->
   run_process w version_cmd = SpawnError FileNotFoundError \/
   (exists rc out err, run_process w version_cmd = Completed rc out err /\ rc <> 0) ->
   outcome run = Raise (SystemExit 1) /\
   commands (trace run) = [version_cmd] /\
   mkdirs (trace run)
   = [PurePath.str (PurePath.Path (ProcessCli.output args))]).
Proof.
  cbv zeta. unfold ProcessCli.main. split.
  - intros ->. reflexivity.
  - intros -> H.
    destruct (init_without_ffmpeg w (ProcessCli.output args) H)
      as (Hc & Hm & Hexit).
    unfold outcome, trace in *.
    destruct (FFmpegThumbnailExtractor.init w _) as [ti ri].
    cbn [fst snd] in *. subst ri. unfold_run. cbn [negb fst snd].
    rewrite Hc, Hm. repeat split.
Qed.
End ProcessMain.

(** ** The quality option *)

Section Quality.
Variable w : World.


Lemma extract_asks_quality (self : FFmpegThumbnailExtractor.t) (p : PurePath.t)
      (output_name : option string) (q : Z) :
  forallb (asks_quality q)
    (commands (trace (FFmpegThumbnailExtractor.extract_thumbnail
                        w self p output_name q))) = true.
Proof.
  unfold FFmpegThumbnailExtractor.extract_thumbnail.
  destruct (path_exists w _); cbn [negb]; [|reflexivity].
  destruct (PyStr.mem _ _); cbn [negb]; [|reflexivity].
  pose proof (probe_commands w p) as Hc.
  unfold trace in *.
  destruct (FFmpegThumbnailExtractor.get_video_duration w p) as [t0 [[d|]|e]];
    cbn [fst] in Hc;
    unfold print, tell, ret, raise, lift, bind, try_except; simp;
    unfold commands in *; rewrite ?flat_map_app, ?Hc; try reflexivity.
  destruct (PyFloat.le_zero d); simp; rewrite ?flat_map_app, ?Hc; [reflexivity|].
  unfold FFmpegThumbnailExtractor.subprocess_run.
  unfold print, tell, ret, raise, lift, bind.
  set (cmd := FFmpegThumbnailExtractor.ffmpeg_cmd _ _ _ _).
  assert (Hq : asks_quality q cmd = true).
  { unfold asks_quality, cmd, cmd_quality. cbn. now rewrite Z.eqb_refl. }
  destruct (run_process w cmd) as [e|rc out err]; simp.
  - destruct e; simp; repeat step; rewrite flat_map_app, Hc;
      cbn -[asks_quality cmd]; rewrite Hq; reflexivity.
  - repeat step; rewrite flat_map_app, Hc;
      cbn -[asks_quality cmd]; rewrite Hq; reflexivity.
Qed.

Lemma loop_commands (P : list arg -> bool) (extract : PurePath.t -> M bool)
      (files : list PurePath.t) :
  (forall p, forallb P (commands (trace (extract p))) = true) ->
  forall s f,
    forallb P (commands (trace (Folder.process_loop extract files s f))) = true.
Proof.
  intros Hx. induction files as [|p rest IH]; intros s f; [reflexivity|].
  cbn [Folder.process_loop]. specialize (Hx p).
  unfold print, tell, bind, trace in *.
  destruct (extract p) as [t [[|]|e]]; cbn [fst] in Hx.
  - specialize (IH (s + 1) f).
    destruct (Folder.process_loop extract rest (s + 1) f) as [t' r].
    cbn in *. unfold commands in *. rewrite flat_map_app, forallb_app.
    now rewrite Hx, IH.
  - specialize (IH s (f + 1)).
    destruct (Folder.process_loop extract rest s (f + 1)) as [t' r].
    cbn in *. unfold commands in *. rewrite flat_map_app, forallb_app.
    now rewrite Hx, IH.
  - cbn. exact Hx.
Qed.

(** X20. In folder mode the [-q/--quality] option has no effect: the program
    behaves as with the default, and every ffmpeg command of the folder
    run asks for quality 2. *)
Theorem folder_mode_ignores_quality
        (path_is_file : string -> bool) (args : ProcessCli.Args) (q : Z)
        (self : FFmpegThumbnailExtractor.t) :
  path_is_file (PurePath.str (PurePath.Path (ProcessCli.input args))) = false ->
  ProcessCli.main w path_is_file
    {| ProcessCli.input := ProcessCli.input args;
       ProcessCli.output := ProcessCli.output args;
       ProcessCli.quality := q |}
  = ProcessCli.main w path_is_file args /\
  forallb (asks_quality 2)
    (commands (trace (FFmpegThumbnailExtractor.process_folder w self
                        (PurePath.Path (ProcessCli.input args))))) = true.
Proof.
  intros Hfile. split.
  - unfold ProcessCli.main. cbn [ProcessCli.input ProcessCli.output].
    rewrite Hfile. reflexivity.
  - unfold FFmpegThumbnailExtractor.process_folder, Folder.process_folder.
    destruct (path_exists w _); cbn [negb]; [|reflexivity].
    destruct (path_is_dir w _); cbn [negb]; [|reflexivity].
    destruct (Folder.find_video_files w _) as [|v vs]; [reflexivity|].
    pose proof (loop_commands (asks_quality 2)
                  (FFmpegThumbnailExtractor.extract_one w self) (v :: vs)
                  (fun p => extract_asks_quality self p None 2) 0 0) as Hl.
    unfold print, tell, bind, trace in *.
    destruct (Folder.process_loop _ (v :: vs) 0 0) as [t r]. exact Hl.
Qed.
End Quality.

Lemma decode_main_exit_status_witness :
  outcome (DecodeCli.main posix CliSample.is_file CliSample.decode_args)
  = Raise (SystemExit 1).
Proof.
  destruct (decode_main_exit_status posix CliSample.is_file CliSample.decode_args
              jpeg_extractor eq_refl) as (_ & _ & H & _).
  destruct (H eq_refl eq_refl eq_refl) as [_ H'].
  apply (H' 3 1); [vm_compute; reflexivity|reflexivity].
Defined.

Lemma process_main_exit_status_witness :
  outcome (ProcessCli.main posix CliSample.is_file CliSample.process_args)
  = Raise (SystemExit 1).
Proof.
  destruct (process_main_exit_status posix CliSample.is_file CliSample.process_args
              ffmpeg_extractor) as (_ & H & _); [vm_compute; reflexivity|].
  destruct (H eq_refl eq_refl eq_refl) as [_ H'].
  apply (H' 3 1); [vm_compute; reflexivity|reflexivity].
Defined.

Lemma process_main_startup_checks_witness :
  commands (trace (ProcessCli.main CliSample.without_ffmpeg CliSample.is_file
                     CliSample.process_args)) = [version_cmd].
Proof.
  exact (proj1 (proj2
    (proj2 (process_main_startup_checks CliSample.without_ffmpeg CliSample.is_file
              CliSample.process_args) eq_refl (or_introl eq_refl)))).
Defined.

Lemma folder_mode_ignores_quality_witness :
  ProcessCli.main posix CliSample.is_file
    {| ProcessCli.input := "videos"; ProcessCli.output := "thumbnails";
       ProcessCli.quality := 31 |}
  = ProcessCli.main posix CliSample.is_file CliSample.process_args.
Proof.
  exact (proj1 (folder_mode_ignores_quality posix CliSample.is_file
                  CliSample.process_args 31 ffmpeg_extractor eq_refl)).
Defined.

(** ** The folder loop and what escapes it *)

Section LoopEscape.
Variable extract : PurePath.t -> M bool.

(** X21. An exception that escapes one extraction ends the folder loop there:
    no summary comes back and the files after it are not touched. *)
Theorem loop_stops_at_exception (done rest : list PurePath.t) (p : PurePath.t)
        (e : exn) :
  (forall q, In q done -> returns_bool extract q) ->
  outcome (extract p) = Raise e ->
  forall s f,
    Folder.process_loop extract (done ++ p :: rest) s f
    = ((flat_map (one_file extract) done ++ one_file extract p)%list, Raise e).
Proof.
  intros Hdone Hp. induction done as [|q done IH]; intros s f.
  - cbn [app flat_map Folder.process_loop]. unfold one_file, outcome, trace in *.
    unfold print, tell, bind. destruct (extract p) as [t r]. cbn in Hp. subst r.
    reflexivity.
  - destruct (Hdone q (or_introl eq_refl)) as [b Hb].
    assert (Hrest : forall x, In x done -> returns_bool extract x)
      by (intros x Hx; apply Hdone; now right).
    specialize (IH Hrest).
    cbn [app flat_map Folder.process_loop].
    unfold one_file at 1. unfold outcome, trace in *.
    unfold print, tell, bind. destruct (extract q) as [t r]. cbn in Hb. subst r.
    destruct b; rewrite IH; cbn [fst app]; rewrite <- app_assoc; reflexivity.
Qed.
End LoopEscape.

Lemma loop_stops_at_exception_witness :
  outcome (FFmpegThumbnailExtractor.process_folder without_ffprobe ffmpeg_extractor
             (PurePath.Path "videos")) = Raise FileNotFoundError.
Proof.
  unfold FFmpegThumbnailExtractor.process_folder.
  rewrite process_folder_enters_loop by (vm_compute; (reflexivity || discriminate)).
  change (Folder.find_video_files without_ffprobe (PurePath.Path "videos"))
    with ([] ++ PurePath.Path "videos/a.mp4"
             :: [PurePath.Path "videos/b.avi"; PurePath.Path "videos/broken.mkv";
                 PurePath.Path "videos/c.webm"])%list.
  rewrite (loop_stops_at_exception
             (FFmpegThumbnailExtractor.extract_one without_ffprobe ffmpeg_extractor)
             [] _ (PurePath.Path "videos/a.mp4") FileNotFoundError).
  - reflexivity.
  - intros q [].
  - vm_compute. reflexivity.
Defined.

(** ** Resources over a whole folder run *)

Lemma live_app (t1 t2 : list event) :
  forall c p, live c p (t1 ++ t2) = live (fst (live c p t1)) (snd (live c p t1)) t2.
Proof.
  induction t1 as [|e t1 IH]; intros c p; [reflexivity|].
  destruct e as [| |? []| | | | | | |]; cbn [app live]; apply IH.
Qed.

Lemma decode_extract_live (w : World) (self : ThumbnailExtractor.t)
      (p : PurePath.t) (output_name : option string) (c pr : nat) :
  live c pr (trace (ThumbnailExtractor.extract_thumbnail w self p output_name))
  = (c, pr).
Proof.
  unfold ThumbnailExtractor.extract_thumbnail, ThumbnailExtractor.VideoCapture,
    ThumbnailExtractor.extract_body, ThumbnailExtractor.imwrite.
  unfold_M. simp.
  repeat step; reflexivity.
Qed.

Lemma process_extract_live (w : World) (self : FFmpegThumbnailExtractor.t)
      (p : PurePath.t) (output_name : option string) (q : Z) (c pr : nat) :
  live c pr (trace (FFmpegThumbnailExtractor.extract_thumbnail
                      w self p output_name q)) = (c, pr).
Proof.
  unfold FFmpegThumbnailExtractor.extract_thumbnail,
    FFmpegThumbnailExtractor.get_video_duration,
    FFmpegThumbnailExtractor.subprocess_run.
  unfold_M. simp.
  repeat step; reflexivity.
Qed.

Lemma loop_live (extract : PurePath.t -> M bool) (files : list PurePath.t) :
  (forall p c pr, live c pr (trace (extract p)) = (c, pr)) ->
  forall s f c pr,
    live c pr (trace (Folder.process_loop extract files s f)) = (c, pr).
Proof.
  intros Hx. induction files as [|p rest IH]; intros s f c pr; [reflexivity|].
  cbn [Folder.process_loop]. specialize (Hx p c pr).
  unfold print, tell, bind, trace in *.
  destruct (extract p) as [t [[|]|e]]; cbn [fst] in Hx.
  - specialize (IH (s + 1) f c pr).
    destruct (Folder.process_loop extract rest (s + 1) f) as [t' r].
    cbn [fst app live] in *. now rewrite live_app, Hx.
  - specialize (IH s (f + 1) c pr).
    destruct (Folder.process_loop extract rest s (f + 1)) as [t' r].
    cbn [fst app live] in *. now rewrite live_app, Hx.
  - cbn [fst app live]. exact Hx.
Qed.

Lemma folder_live (w : World) (output_folder : PurePath.t)
      (extract : PurePath.t -> M bool) (folder : PurePath.t) :
  (forall p c pr, live c pr (trace (extract p)) = (c, pr)) ->
  all_released (trace (Folder.process_folder w output_folder extract folder)) = true.
Proof.
  intros Hx. unfold Folder.process_folder.
  destruct (path_exists w _); cbn [negb]; [|reflexivity].
  destruct (path_is_dir w _); cbn [negb]; [|reflexivity].
  destruct (Folder.find_video_files w folder) as [|v vs]; [reflexivity|].
  pose proof (loop_live extract (v :: vs) Hx 0 0 0%nat 0%nat) as Hl.
  unfold print, tell, bind, trace, all_released in *.
  destruct (Folder.process_loop extract (v :: vs) 0 0) as [t r].
  cbn [fst app live] in *. now rewrite Hl.
Qed.

(** X22. A folder run, however it ends, leaves no capture handle open and no
    child process running. *)
Theorem folder_run_releases_everything
        (w : World) (dself : ThumbnailExtractor.t)
        (fself : FFmpegThumbnailExtractor.t) (folder : PurePath.t) :
  all_released (trace (ThumbnailExtractor.process_folder w dself folder)) = true /\
  all_released (trace (FFmpegThumbnailExtractor.process_folder w fself folder)) = true.
Proof.
  split; apply folder_live; intros p c pr.
  - apply decode_extract_live.
  - apply process_extract_live.
Qed.

(** ** Stem, suffix and the default thumbnail name *)

Lemma take_drop (i : nat) (s : string) : PyStr.take i s ++ PyStr.drop i s = s.
Proof.
  revert s. induction i as [|i IH]; intros [|c r]; cbn; auto.
  now rewrite IH.
Qed.

Lemma take_app_length (pre e : string) :
  PyStr.take (String.length pre) (pre ++ e) = pre.
Proof. induction pre as [|c r IH]; cbn; [reflexivity|now rewrite IH]. Qed.

(** X23. A name splits into stem and suffix; for a name with an extension the
    stem is what precedes the last dot, and the default thumbnail name
    is built on it, so videos that differ in extension only share their
    thumbnail. *)
Theorem default_thumbnail_name (self : ThumbnailExtractor.t) (p : PurePath.t) :
  PurePath.stem p ++ PurePath.suffix p = PurePath.name p /\
  (forall pre rest,
      PurePath.name p = pre ++ String "." rest ->
      pre <> EmptyString -> rest <> EmptyString ->
      PyStr.rfind "." rest = None ->
      PurePath.stem p = pre /\
      PurePath.suffix p = String "." rest /\
      ThumbnailExtractor.output_file_name self p None
      = pre ++ "_thumbnail." ++ ThumbnailExtractor.file_extension self /\
      FFmpegThumbnailExtractor.output_file_name p None
      = pre ++ "_thumbnail.jpg").
Proof.
  split.
  - unfold PurePath.stem, PurePath.suffix.
    destruct (PurePath.suffix_index (PurePath.name p)).
    + apply take_drop.
    + destruct (PurePath.name p); cbn; [reflexivity|f_equal].
      clear. induction s as [|c r IH]; cbn; [reflexivity|now rewrite IH].
  - intros pre rest Hn Hpre Hrest Hdot.
    assert (Hi : PurePath.suffix_index (PurePath.name p) = Some (String.length pre)).
    { unfold PurePath.suffix_index. rewrite Hn, (rfind_app_dot pre rest Hdot).
      rewrite append_length. cbn [String.length].
      destruct pre as [|c pre]; [congruence|].
      destruct rest as [|c' rest]; [congruence|].
      replace ((0 <? String.length (String c pre))%nat) with true
        by (symmetry; apply Nat.ltb_lt; cbn; lia).
      replace ((String.length (String c pre)
                <? String.length (String c pre)
                   + S (String.length (String c' rest)) - 1)%nat)
        with true by (symmetry; apply Nat.ltb_lt; cbn; lia).
      reflexivity. }
    assert (Hstem : PurePath.stem p = pre).
    { unfold PurePath.stem. rewrite Hi, Hn. apply take_app_length. }
    repeat split.
    + exact Hstem.
    + unfold PurePath.suffix. rewrite Hi, Hn. apply drop_app_length.
    + cbn [ThumbnailExtractor.output_file_name]. now rewrite Hstem.
    + cbn [FFmpegThumbnailExtractor.output_file_name]. now rewrite Hstem.
Qed.

Lemma default_thumbnail_name_witness :
  ThumbnailExtractor.output_file_name jpeg_extractor (PurePath.Path "videos/clip.mp4") None
  = "clip_thumbnail.jpg" /\
  ThumbnailExtractor.output_file_name jpeg_extractor (PurePath.Path "videos/clip.avi") None
  = "clip_thumbnail.jpg".
Proof.
  split.
  - exact (proj1 (proj2 (proj2
      (proj2 (default_thumbnail_name jpeg_extractor (PurePath.Path "videos/clip.mp4"))
         "clip" "mp4" eq_refl ltac:(discriminate) ltac:(discriminate) eq_refl)))).
  - exact (proj1 (proj2 (proj2
      (proj2 (default_thumbnail_name jpeg_extractor (PurePath.Path "videos/clip.avi"))
         "clip" "avi" eq_refl ltac:(discriminate) ltac:(discriminate) eq_refl)))).
Defined.

(** ** The single-file operations on a host *)

Ltac unfold_io :=
  unfold Io.print, Io.Path_exists, Io.Path_exists_after, Io.VideoCapture,
    ThumbnailExtractor.VideoCapture, ThumbnailExtractor.imwrite,
    FFmpegThumbnailExtractor.subprocess_run;
  unfold print, tell, ret, raise, lift, bind, try_except, try_finally,
    trace, outcome.

Section HostProcess.
Variable h : Host.
Variable self : FFmpegThumbnailExtractor.t.
Variable output_name : option string.
Variable quality : Z.
Variable p : PurePath.t.

(** After the probe: the ffmpeg run on a host. *)
Lemma host_run_with_duration (t0 : list event) (d : pyfloat) :
  exists_error h (PurePath.str p) = None ->
  path_exists (world h) (PurePath.str p) = true ->
  is_supported p = true ->
  ProcessIo.get_video_duration h p = (t0, Ret (Some d)) ->
  PyFloat.le_zero d = false ->
  let run := ProcessIo.extract_thumbnail h self p output_name quality in
  let output_path :=
    PurePath.joinpath (FFmpegThumbnailExtractor.output_folder self)
      (FFmpegThumbnailExtractor.output_file_name p output_name) in
  let cmd := FFmpegThumbnailExtractor.ffmpeg_cmd
               (FFmpegThumbnailExtractor.timestamp d) p quality output_path in
  let saved := check_mark ++ " Saved thumbnail: " ++ PurePath.str output_path in
  commands (trace run) = (commands t0 ++ [cmd])%list /\
  (outcome run = Ret true <->
   (exists out err, run_process (world h) cmd = Completed 0 out err) /\
   exists_error h (PurePath.str output_path) = None /\
   exists_after_run (world h) cmd (PurePath.str output_path) = true /\
   print_error h saved = None) /\
  (forall rc out err,
      run_process (world h) cmd = Completed rc out err -> rc <> 0 ->
      outcome run <> Ret true /\
      ((forall msg, print_error h msg = None) -> outcome run = Ret false)) /\
  (forall out err e,
      run_process (world h) cmd = Completed 0 out err ->
      exists_error h (PurePath.str output_path) = None ->
      exists_after_run (world h) cmd (PurePath.str output_path) = true ->
      print_error h saved = Some e ->
      is_Exception e = true ->
      ffmpeg_outputs (trace run) = (ffmpeg_outputs t0 ++ [PurePath.str output_path])%list /\
      outcome run <> Ret true /\
      ((forall stderr, e <> CalledProcessError stderr) ->
       print_error h ("Error processing " ++ PurePath.name p ++ ": " ++ exn_str e)
       = None ->
       outcome run = Ret false)).
Proof.
  intros Hee Hex Hsup Hd Hle. cbv zeta.
  unfold ProcessIo.extract_thumbnail, is_supported in *.
  unfold Io.Path_exists. rewrite Hee, Hex, Hsup, Hd. clear Hd.
  unfold Io.print, Io.Path_exists_after.
  unfold print, tell, ret, raise, lift, bind, try_except, try_finally,
    trace, outcome.
  simp. rewrite Hle.
  set (output_path := PurePath.joinpath _ _).
  set (cmd := FFmpegThumbnailExtractor.ffmpeg_cmd _ _ _ _).
  unfold FFmpegThumbnailExtractor.subprocess_run.
  unfold print, tell, ret, raise, lift, bind.
  destruct (run_process (world h) cmd) as [e|rc out err] eqn:Hrun; simp.
  - refine (conj _ (conj _ (conj _ _))).
    + destruct e; simp; repeat step;
        unfold commands; rewrite flat_map_app; cbn;
        rewrite ?app_nil_r; reflexivity.
    + split.
      * destruct e; simp; repeat step; discriminate.
      * intros ((out & err & H) & _). discriminate.
    + intros rc out err H. discriminate.
    + intros out err e' H. discriminate.
  - destruct (rc =? 0) eqn:Hrc; simp.
    + apply Z.eqb_eq in Hrc. subst rc.
      destruct (exists_error h (PurePath.str output_path)) as [e|] eqn:Hx; simp.
      * refine (conj _ (conj _ (conj _ _))).
        -- destruct e; simp; repeat step;
             unfold commands; rewrite flat_map_app; cbn;
             rewrite ?app_nil_r; reflexivity.
        -- split.
           ++ destruct e; simp; repeat step; discriminate.
           ++ intros (_ & H & _). discriminate.
        -- intros rc out' err' H Hne. inversion H. congruence.
        -- intros out' err' e' _ H. discriminate.
      * destruct (exists_after_run (world h) cmd (PurePath.str output_path))
          eqn:Hout; simp.
        -- destruct (print_error h (check_mark ++ " Saved thumbnail: "
                                    ++ PurePath.str output_path))
             as [e|] eqn:Hp; simp.
           ++ refine (conj _ (conj _ (conj _ _))).
              ** destruct e; simp; repeat step;
                   unfold commands; rewrite flat_map_app; cbn;
                   rewrite ?app_nil_r; reflexivity.
              ** split.
                 --- destruct e; simp; repeat step; discriminate.
                 --- intros (_ & _ & _ & H). discriminate.
              ** intros rc out' err' H Hne. inversion H. congruence.
              ** intros out' err' e' _ _ _ H He'. inversion H; subst e'.
                 refine (conj _ (conj _ _)).
                 --- destruct e; simp; try discriminate; repeat step;
                       unfold ffmpeg_outputs; rewrite flat_map_app; cbn;
                       rewrite ?app_nil_r; reflexivity.
                 --- destruct e; simp; repeat step; discriminate.
                 --- intros Hcp Hq.
                     destruct e; simp; try discriminate;
                       try (exfalso; eapply Hcp; reflexivity);
                       cbn -[String.append PyStr.take] in Hq; rewrite Hq; reflexivity.
           ++ refine (conj _ (conj _ (conj _ _))).
              ** unfold commands; rewrite flat_map_app; cbn.
                 rewrite ?app_nil_r; reflexivity.
              ** split; [intros _; repeat split; eauto|reflexivity].
              ** intros rc out' err' H Hne. inversion H. congruence.
              ** intros out' err' e' _ _ _ H. discriminate.
        -- refine (conj _ (conj _ (conj _ _))).
           ++ repeat step; unfold commands; rewrite flat_map_app; cbn;
                rewrite ?app_nil_r; reflexivity.
           ++ split.
              ** repeat step; discriminate.
              ** intros (_ & _ & H & _). discriminate.
           ++ intros rc out' err' H Hne. inversion H. congruence.
           ++ intros out' err' e' _ _ H. discriminate.
    + apply Z.eqb_neq in Hrc. refine (conj _ (conj _ (conj _ _))).
      * repeat step; unfold commands; rewrite flat_map_app; cbn;
          rewrite ?app_nil_r; reflexivity.
      * split.
        -- repeat step; discriminate.
        -- intros ((out' & err' & H) & _). inversion H. congruence.
      * intros rc' out' err' H _. inversion H; subst. split.
        -- repeat step; discriminate.
        -- intros Hall. rewrite !Hall. simp.
           destruct (String.eqb err' EmptyString); simp; rewrite ?Hall; reflexivity.
      * intros out' err' e' H. inversion H. congruence.
Qed.
End HostProcess.

Section HostProbe.
Variable h : Host.
Variable p : PurePath.t.

Lemma host_probe_trace :
  commands (trace (ProcessIo.get_video_duration h p))
  = [FFmpegThumbnailExtractor.ffprobe_cmd p] /\
  ffmpeg_outputs (trace (ProcessIo.get_video_duration h p)) = [].
Proof.
  unfold ProcessIo.get_video_duration, FFmpegThumbnailExtractor.subprocess_run,
    Io.print.
  unfold print, tell, ret, raise, lift, bind, try_except, trace, outcome.
  destruct (run_process (world h) (FFmpegThumbnailExtractor.ffprobe_cmd p))
    as [e|rc out err]; simp; [destruct e; simp; repeat step; split; reflexivity|].
  destruct (rc =? 0) eqn:Hrc; simp; [|repeat step; split; reflexivity].
  apply Z.eqb_eq in Hrc. subst rc.
  destruct (json_loads (world h) out) as [data|]; simp;
    [|repeat step; split; reflexivity].
  destruct (PyJson.contains "format" data) as [[|]|e]; simp;
    try (split; reflexivity);
    [|destruct e; simp; repeat step; split; reflexivity].
  destruct (PyJson.getitem data "format") as [fmt|e]; simp;
    [|destruct e; simp; repeat step; split; reflexivity].
  destruct (PyJson.contains "duration" fmt) as [[|]|e]; simp;
    try (split; reflexivity);
    [|destruct e; simp; repeat step; split; reflexivity].
  destruct (PyJson.getitem fmt "duration") as [d|e]; simp;
    [|destruct e; simp; repeat step; split; reflexivity].
  destruct (FFmpegThumbnailExtractor.py_float (world h) d) as [x|e]; simp;
    [split; reflexivity|destruct e; simp; repeat step; split; reflexivity].
Qed.
End HostProbe.

Section HostProcessClaims.
Variable h : Host.
Variable self : FFmpegThumbnailExtractor.t.
Variable output_name : option string.
Variable quality : Z.
Variable p : PurePath.t.

(** C3. On an existing, supported video whose probed duration is a
    positive [D], the process backend runs the probe and then exactly one
    more command, [ffmpeg -ss ts -i <video> -vframes 1 -q:v <quality> -y
    <output>], with [ts] equal to [max(0, D - 1)]; that value is never
    negative and is exactly 0 when [D < 1]; and the call returns [True]
    whenever that ffmpeg run exits with status 0, the output file is
    found and the success line is printed, however short the video is. *)
Theorem process_seeks_clamped_timestamp (t0 : list event) (D : Q) :
  exists_error h (PurePath.str p) = None ->
  path_exists (world h) (PurePath.str p) = true ->
  is_supported p = true ->
  ProcessIo.get_video_duration h p = (t0, Ret (Some (Fin D))) ->
  (0 < D)%Q ->
  exists ts : Q,
    FFmpegThumbnailExtractor.timestamp (Fin D) = Fin ts /\
    (ts == Qmax 0 (D - 1))%Q /\
    (0 <= ts)%Q /\
    ((D < 1)%Q -> ts = 0%Q) /\
    let run := ProcessIo.extract_thumbnail h self p output_name quality in
    let output_path :=
      PurePath.joinpath (FFmpegThumbnailExtractor.output_folder self)
        (FFmpegThumbnailExtractor.output_file_name p output_name) in
    let cmd :=
      [AStr "ffmpeg"; AStr "-ss"; AFloat (Fin ts);
       AStr "-i"; AStr (PurePath.str p);
       AStr "-vframes"; AStr "1"; AStr "-q:v"; AInt quality; AStr "-y";
       AStr (PurePath.str output_path)] in
    commands (trace run) = [FFmpegThumbnailExtractor.ffprobe_cmd p; cmd] /\
    map cmd_seek (filter (is_program "ffmpeg") (commands (trace run)))
    = [Some (Fin ts)] /\
    map cmd_input (filter (is_program "ffmpeg") (commands (trace run)))
    = [Some (PurePath.str p)] /\
    (forall out err,
        run_process (world h) cmd = Completed 0 out err ->
        exists_error h (PurePath.str output_path) = None ->
        exists_after_run (world h) cmd (PurePath.str output_path) = true ->
        print_error h (check_mark ++ " Saved thumbnail: "
                       ++ PurePath.str output_path) = None ->
        outcome run = Ret true).
Proof.
  intros Hee Hex Hsup Hd HD.
  assert (Hle : PyFloat.le_zero (Fin D) = false).
  { cbn. destruct (Qle_bool D 0) eqn:E; [|reflexivity].
    apply Qle_bool_iff in E. lra. }
  destruct (host_run_with_duration h self output_name quality p t0 (Fin D)
              Hee Hex Hsup Hd Hle) as (Hc & Hok & _).
  pose proof (proj1 (host_probe_trace h p)) as Hp.
  rewrite Hd in Hp. cbn [trace fst] in Hp. rewrite Hp in Hc. clear Hp.
  revert Hc Hok.
  unfold FFmpegThumbnailExtractor.timestamp, PyFloat.max_zero, PyFloat.sub_one,
    PyFloat.gt_zero, FFmpegThumbnailExtractor.ffmpeg_cmd.
  destruct (Qle_bool (D - 1) 0) eqn:E; cbn [negb app]; intros Hc Hok.
  - apply Qle_bool_iff in E.
    exists 0%Q. split; [reflexivity|].
    split; [symmetry; apply Q.max_l; exact E|].
    split; [lra|]. split; [reflexivity|].
    cbv zeta. rewrite Hc.
    split; [reflexivity|]. split; [reflexivity|]. split; [reflexivity|].
    intros out err H1 H2 H3 H4. apply Hok. repeat split; eauto.
  - assert (E' : (0 < D - 1)%Q).
    { apply Qnot_le_lt. intros H. apply Qle_bool_iff in H. congruence. }
    exists (D - 1)%Q. split; [reflexivity|].
    split; [symmetry; apply Q.max_r; lra|].
    split; [lra|]. split; [intros; lra|].
    cbv zeta. rewrite Hc.
    split; [reflexivity|]. split; [reflexivity|]. split; [reflexivity|].
    intros out err H1 H2 H3 H4. apply Hok. repeat split; eauto.
Qed.

(** X10. With a duration that passes the check, the result is [True]
    exactly when ffmpeg exits with status 0, the output file is found and
    the success line is printed. A non-zero exit never gives [True]. When
    the console rejects the success line, the file ffmpeg wrote is there
    and the result is not [True]: it is [False] once the error line is
    printed. *)
Theorem process_success_iff (t0 : list event) (d : pyfloat) :
  exists_error h (PurePath.str p) = None ->
  path_exists (world h) (PurePath.str p) = true ->
  is_supported p = true ->
  ProcessIo.get_video_duration h p = (t0, Ret (Some d)) ->
  PyFloat.le_zero d = false ->
  let run := ProcessIo.extract_thumbnail h self p output_name quality in
  let output_path :=
    PurePath.joinpath (FFmpegThumbnailExtractor.output_folder self)
      (FFmpegThumbnailExtractor.output_file_name p output_name) in
  let cmd := FFmpegThumbnailExtractor.ffmpeg_cmd
               (FFmpegThumbnailExtractor.timestamp d) p quality output_path in
  let saved := check_mark ++ " Saved thumbnail: " ++ PurePath.str output_path in
  (outcome run = Ret true <->
   (exists out err, run_process (world h) cmd = Completed 0 out err) /\
   exists_error h (PurePath.str output_path) = None /\
   exists_after_run (world h) cmd (PurePath.str output_path) = true /\
   print_error h saved = None) /\
  (forall rc out err,
      run_process (world h) cmd = Completed rc out err -> rc <> 0 ->
      outcome run <> Ret true /\
      ((forall msg, print_error h msg = None) -> outcome run = Ret false)) /\
  (forall out err e,
      run_process (world h) cmd = Completed 0 out err ->
      exists_error h (PurePath.str output_path) = None ->
      exists_after_run (world h) cmd (PurePath.str output_path) = true ->
      print_error h saved = Some e ->
      is_Exception e = true ->
      ffmpeg_outputs (trace run) = [PurePath.str output_path] /\
      outcome run <> Ret true /\
      ((forall stderr, e <> CalledProcessError stderr) ->
       print_error h ("Error processing " ++ PurePath.name p ++ ": " ++ exn_str e)
       = None ->
       outcome run = Ret false)).
Proof.
  intros Hee Hex Hsup Hd Hle.
  destruct (host_run_with_duration h self output_name quality p t0 d
              Hee Hex Hsup Hd Hle) as (_ & Hiff & Hnz & Hrej).
  pose proof (proj2 (host_probe_trace h p)) as Hp.
  rewrite Hd in Hp. cbn [trace fst] in Hp.
  cbv zeta in *. rewrite Hp in Hrej. cbn [app] in Hrej.
  split; [exact Hiff|]. split; [exact Hnz|exact Hrej].
Qed.
End HostProcessClaims.

Section HostDecode.
Variable h : Host.
Variable self : ThumbnailExtractor.t.
Variable output_name : option string.
Variable p : PurePath.t.

(** X12. With finite, non-zero properties the result is [True] exactly
    when a frame is read, the image writer does not raise and the success
    line is printed; what the writer returns plays no part. When the
    console rejects the success line, the image has been handed to the
    writer and the result is not [True]: it is [False] once the error
    line is printed. *)
Theorem decode_success_iff (cap : Capture) (F C : Q) :
  exists_error h (PurePath.str p) = None ->
  path_exists (world h) (PurePath.str p) = true ->
  is_supported p = true ->
  open_error h (PurePath.str p) = None ->
  cv_open (world h) (PurePath.str p) = Some cap ->
  cap_fps cap = Fin F ->
  cap_frame_count cap = Fin C ->
  PyFloat.trunc C <> 0 -> ~ (F == 0)%Q ->
  let run := DecodeIo.extract_thumbnail h self p output_name in
  let target := ThumbnailExtractor.target_frame (PyFloat.trunc C) (PyFloat.trunc F) in
  let out := PurePath.str
               (PurePath.joinpath (ThumbnailExtractor.output_folder self)
                  (ThumbnailExtractor.output_file_name self p output_name)) in
  let saved := check_mark ++ " Saved thumbnail: " ++ out in
  (outcome run = Ret true <->
   exists fr written,
     cap_read cap target = Ret (Some fr) /\
     cv_imwrite (world h) out fr (writer_param self) = Ret written /\
     print_error h saved = None) /\
  (forall fr written e,
      cap_read cap target = Ret (Some fr) ->
      cv_imwrite (world h) out fr (writer_param self) = Ret written ->
      print_error h saved = Some e ->
      is_Exception e = true ->
      imwrites (trace run) = [out] /\
      outcome run <> Ret true /\
      (print_error h ("Error processing " ++ PurePath.name p ++ ": " ++ exn_str e)
       = None ->
       outcome run = Ret false)).
Proof.
  intros Hee Hex Hsup Hoe Hopen Hfps Hcount HN HF. cbv zeta.
  unfold DecodeIo.extract_thumbnail, DecodeIo.extract_body, writer_param,
    is_supported in *.
  unfold Io.Path_exists, Io.VideoCapture, ThumbnailExtractor.VideoCapture,
    ThumbnailExtractor.imwrite, Io.print.
  rewrite Hee, Hex, Hsup, Hoe, Hopen.
  unfold print, tell, ret, raise, lift, bind, try_except, try_finally,
    trace, outcome.
  simp. rewrite Hfps, Hcount. simp.
  apply Z.eqb_neq in HN. rewrite HN.
  destruct (Qeq_bool F 0) eqn:E; [apply Qeq_bool_iff in E; contradiction|].
  simp.
  set (out := PurePath.str (PurePath.joinpath _ _)).
  destruct (cap_read cap _) as [[fr|]|e]; simp.
  - destruct (String.eqb (ThumbnailExtractor.image_format self) "png"); simp.
    + destruct (cv_imwrite (world h) out fr (PNG_COMPRESSION 9)) as [b|e] eqn:Hw; simp.
      * destruct (print_error h (check_mark ++ " Saved thumbnail: " ++ out))
          as [e|] eqn:Hp; simp.
        -- split.
           ++ split.
              ** destruct (is_Exception e); simp; repeat step; discriminate.
              ** intros (fr' & b' & _ & _ & H). discriminate.
           ++ intros fr' b' e' _ _ H He'. inversion H; subst e'. rewrite He'. simp.
              refine (conj _ (conj _ _)).
              ** repeat step; reflexivity.
              ** repeat step; discriminate.
              ** intros Hq. rewrite Hq. reflexivity.
        -- split.
           ++ split; [intros _; eauto|reflexivity].
           ++ intros fr' b' e' _ _ H. discriminate.
      * split.
        -- split.
           ++ destruct (is_Exception e); simp; repeat step; discriminate.
           ++ intros (fr' & b & H1 & H2 & _). inversion H1; subst. congruence.
        -- intros fr' b e' H1 H2. inversion H1; subst. congruence.
    + destruct (cv_imwrite (world h) out fr (JPEG_QUALITY 95)) as [b|e] eqn:Hw; simp.
      * destruct (print_error h (check_mark ++ " Saved thumbnail: " ++ out))
          as [e|] eqn:Hp; simp.
        -- split.
           ++ split.
              ** destruct (is_Exception e); simp; repeat step; discriminate.
              ** intros (fr' & b' & _ & _ & H). discriminate.
           ++ intros fr' b' e' _ _ H He'. inversion H; subst e'. rewrite He'. simp.
              refine (conj _ (conj _ _)).
              ** repeat step; reflexivity.
              ** repeat step; discriminate.
              ** intros Hq. rewrite Hq. reflexivity.
        -- split.
           ++ split; [intros _; eauto|reflexivity].
           ++ intros fr' b' e' _ _ H. discriminate.
      * split.
        -- split.
           ++ destruct (is_Exception e); simp; repeat step; discriminate.
           ++ intros (fr' & b & H1 & H2 & _). inversion H1; subst. congruence.
        -- intros fr' b e' H1 H2. inversion H1; subst. congruence.
  - split.
    + split; [repeat step; discriminate|intros (fr & b & H & _); discriminate].
    + intros fr b e H. discriminate.
  - split.
    + split.
      * destruct (is_Exception e); simp; repeat step; discriminate.
      * intros (fr & b & H & _). discriminate.
    + intros fr b e' H. discriminate.
Qed.
End HostDecode.

Ltac escaped :=
  let H := fresh in
  intros H; inversion H; subst; clear H;
  first [ congruence
        | match goal with
          | Hx : is_Exception _ = true |- _ => cbn in Hx; discriminate Hx
          end
        | left; reflexivity
        | right; left; reflexivity
        | left; assumption
        | right; left; assumption
        | right; left; eexists; eassumption
        | right; right; eexists; eassumption
        | right; right; assumption ].

(** X24. An [Exception] leaves single-file extraction only from the
    calls that stand outside the [try] block or inside a handler:
    [exists()], the capture constructor or a [print] in the decode
    backend; [exists()], a [print] or the duration probe in the process
    backend. One raised by [exists()] does leave both. *)
Theorem single_file_exceptions
        (h : Host) (dself : ThumbnailExtractor.t)
        (fself : FFmpegThumbnailExtractor.t) (p : PurePath.t)
        (output_name : option string) (quality : Z) (e : exn) :
  is_Exception e = true ->
  (outcome (DecodeIo.extract_thumbnail h dself p output_name) = Raise e ->
   exists_error h (PurePath.str p) = Some e \/
   open_error h (PurePath.str p) = Some e \/
   exists msg, print_error h msg = Some e) /\
  (outcome (ProcessIo.extract_thumbnail h fself p output_name quality) = Raise e ->
   exists_error h (PurePath.str p) = Some e \/
   (exists msg, print_error h msg = Some e) \/
   outcome (ProcessIo.get_video_duration h p) = Raise e) /\
  (exists_error h (PurePath.str p) = Some e ->
   outcome (DecodeIo.extract_thumbnail h dself p output_name) = Raise e /\
   outcome (ProcessIo.extract_thumbnail h fself p output_name quality) = Raise e).
Proof.
  intros He. refine (conj _ (conj _ _)).
  - unfold DecodeIo.extract_thumbnail, DecodeIo.extract_body.
    unfold_io. simp.
    repeat step; try discriminate; escaped.
  - unfold ProcessIo.extract_thumbnail.
    unfold Io.Path_exists.
    destruct (exists_error h (PurePath.str p)) as [e0|] eqn:Hx.
    + unfold_io. simp. intros H. inversion H. now left.
    + unfold bind at 1, ret at 1. cbn [app fst snd].
      destruct (negb (path_exists (world h) (PurePath.str p))).
      { unfold_io. simp. repeat step; try discriminate; escaped. }
      destruct (negb (PyStr.mem _ _)).
      { unfold_io. simp. repeat step; try discriminate; escaped. }
      destruct (ProcessIo.get_video_duration h p) as [t0 [d|e0]] eqn:Hd.
      * unfold Io.print, Io.Path_exists_after,
          FFmpegThumbnailExtractor.subprocess_run.
        unfold print, tell, ret, raise, lift, bind, try_except, try_finally,
          trace, outcome.
        simp. repeat step; try discriminate; escaped.
      * unfold bind, outcome. cbn. intros H. inversion H. right. right. reflexivity.
  - intros Hx. unfold DecodeIo.extract_thumbnail, ProcessIo.extract_thumbnail,
      Io.Path_exists. rewrite Hx. split; reflexivity.
Qed.

(** On a host that never fails the operations are the plain ones, the
    check mark apart. *)
Lemma steady_host_agrees (w : World) (dself : ThumbnailExtractor.t)
      (fself : FFmpegThumbnailExtractor.t) (p : PurePath.t)
      (output_name : option string) (quality : Z) :
  let drun := DecodeIo.extract_thumbnail (steady w) dself p output_name in
  let frun := ProcessIo.extract_thumbnail (steady w) fself p output_name quality in
  (outcome drun = outcome (ThumbnailExtractor.extract_thumbnail w dself p output_name) /\
   backend_events (trace drun)
   = backend_events (trace (ThumbnailExtractor.extract_thumbnail
                              w dself p output_name))) /\
  (outcome frun = outcome (FFmpegThumbnailExtractor.extract_thumbnail
                             w fself p output_name quality) /\
   backend_events (trace frun)
   = backend_events (trace (FFmpegThumbnailExtractor.extract_thumbnail
                              w fself p output_name quality))).
Proof.
  cbv zeta. split.
  - unfold DecodeIo.extract_thumbnail, DecodeIo.extract_body,
      ThumbnailExtractor.extract_thumbnail, ThumbnailExtractor.extract_body.
    unfold_io. simp.
    repeat step; split; reflexivity.
  - unfold ProcessIo.extract_thumbnail, ProcessIo.get_video_duration,
      FFmpegThumbnailExtractor.extract_thumbnail,
      FFmpegThumbnailExtractor.get_video_duration.
    unfold_io. simp.
    repeat step; split; reflexivity.
Qed.

Lemma process_seeks_clamped_timestamp_witness :
  exists ts : Q,
    ts = 0%Q /\
    FFmpegThumbnailExtractor.timestamp (Fin (1 # 2)) = Fin ts /\
    outcome (ProcessIo.extract_thumbnail (steady HostSample.short_clips)
               ffmpeg_extractor (PurePath.Path "videos/a.mp4") None 2)
    = Ret true.
Proof.
  destruct (process_seeks_clamped_timestamp
              (steady HostSample.short_clips) ffmpeg_extractor None 2
              (PurePath.Path "videos/a.mp4")
              (trace (ProcessIo.get_video_duration
                        (steady HostSample.short_clips)
                        (PurePath.Path "videos/a.mp4")))
              (1 # 2) eq_refl eq_refl eq_refl eq_refl eq_refl)
    as (ts & Ht & _ & _ & Hz & _ & _ & _ & Hok).
  specialize (Hz eq_refl). subst ts.
  exists 0%Q. split; [reflexivity|]. split; [exact Ht|].
  apply (Hok EmptyString EmptyString); reflexivity.
Defined.

Lemma process_success_iff_witness :
  ffmpeg_outputs
    (trace (ProcessIo.extract_thumbnail (HostSample.ascii_console posix)
              ffmpeg_extractor (PurePath.Path "videos/a.mp4") None 2))
  = ["thumbnails/a_thumbnail.jpg"] /\
  outcome (ProcessIo.extract_thumbnail (HostSample.ascii_console posix)
             ffmpeg_extractor (PurePath.Path "videos/a.mp4") None 2)
  = Ret false.
Proof.
  destruct (process_success_iff (HostSample.ascii_console posix)
              ffmpeg_extractor None 2 (PurePath.Path "videos/a.mp4")
              (trace (ProcessIo.get_video_duration
                        (HostSample.ascii_console posix)
                        (PurePath.Path "videos/a.mp4")))
              (Fin (333667 # 100000)) eq_refl eq_refl eq_refl eq_refl eq_refl)
    as (_ & _ & H).
  destruct (H EmptyString EmptyString ValueError
              eq_refl eq_refl eq_refl eq_refl eq_refl) as (Hw & _ & Hf).
  split; [exact Hw|].
  apply Hf; [intros; discriminate|reflexivity].
Defined.

Lemma decode_success_iff_witness :
  outcome (DecodeIo.extract_thumbnail (steady CliSample.failing_writer)
             jpeg_extractor (PurePath.Path "videos/a.mp4") None) = Ret true /\
  imwrites (trace (DecodeIo.extract_thumbnail (HostSample.ascii_console posix)
                     jpeg_extractor (PurePath.Path "videos/a.mp4") None))
  = ["thumbnails/a_thumbnail.jpg"] /\
  outcome (DecodeIo.extract_thumbnail (HostSample.ascii_console posix)
             jpeg_extractor (PurePath.Path "videos/a.mp4") None) = Ret false.
Proof.
  split.
  - apply (proj1 (decode_success_iff (steady CliSample.failing_writer)
                    jpeg_extractor None (PurePath.Path "videos/a.mp4")
                    ntsc_clip (2997 # 100) 100
                    eq_refl eq_refl eq_refl eq_refl eq_refl eq_refl eq_refl
                    ltac:(discriminate) ltac:(discriminate))).
    exists (Frame 0), false. repeat split; reflexivity.
  - destruct (proj2 (decode_success_iff (HostSample.ascii_console posix)
                       jpeg_extractor None (PurePath.Path "videos/a.mp4")
                       ntsc_clip (2997 # 100) 100
                       eq_refl eq_refl eq_refl eq_refl eq_refl eq_refl eq_refl
                       ltac:(discriminate) ltac:(discriminate))
                    (Frame 0) true ValueError eq_refl eq_refl eq_refl eq_refl)
      as (Hw & _ & Hf).
    split; [exact Hw|apply Hf; reflexivity].
Defined.

Lemma single_file_exceptions_witness :
  outcome (DecodeIo.extract_thumbnail (HostSample.locked posix) jpeg_extractor
             (PurePath.Path "locked/clip.mp4") None) = Raise PermissionError /\
  outcome (ProcessIo.extract_thumbnail (HostSample.locked posix) ffmpeg_extractor
             (PurePath.Path "locked/clip.mp4") None 2) = Raise PermissionError.
Proof.
  exact (proj2 (proj2 (single_file_exceptions (HostSample.locked posix)
                         jpeg_extractor ffmpeg_extractor
                         (PurePath.Path "locked/clip.mp4") None 2
                         PermissionError eq_refl)) eq_refl).
Defined.

(** C7 fails on the process backend. In a folder of four videos, three
    of which extract on their own, a probe of the fourth that prints the
    JSON value [null] raises a [TypeError] that leaves [extract_thumbnail]
    and ends the loop: no summary is returned and the file after it is
    never processed. Where ffprobe is missing the run ends at the first
    file, after a single command. *)
Theorem folder_run_aborts_on_exception :
  let folder := PurePath.Path "videos" in
  let a := PurePath.Path "videos/a.mp4" in
  let b := PurePath.Path "videos/b.avi" in
  let bad := PurePath.Path "videos/broken.mkv" in
  let c := PurePath.Path "videos/c.webm" in
  let extract w := FFmpegThumbnailExtractor.extract_one w ffmpeg_extractor in
  let run w := FFmpegThumbnailExtractor.process_folder w ffmpeg_extractor folder in
  (Folder.find_video_files HostSample.null_duration folder = [a; b; bad; c] /\
   outcome (extract HostSample.null_duration a) = Ret true /\
   outcome (extract HostSample.null_duration b) = Ret true /\
   outcome (extract HostSample.null_duration c) = Ret true /\
   outcome (FFmpegThumbnailExtractor.get_video_duration
              HostSample.null_duration bad) = Raise TypeError /\
   outcome (run HostSample.null_duration) = Raise TypeError /\
   ffmpeg_outputs (trace (run HostSample.null_duration))
   = ["thumbnails/a_thumbnail.jpg"; "thumbnails/b_thumbnail.jpg"] /\
   existsb (cmd_mentions (PurePath.str c))
           (commands (trace (run HostSample.null_duration))) = false) /\
  (Folder.find_video_files without_ffprobe folder = [a; b; bad; c] /\
   outcome (run without_ffprobe) = Raise FileNotFoundError /\
   commands (trace (run without_ffprobe))
   = [FFmpegThumbnailExtractor.ffprobe_cmd a]).
Proof. vm_compute. repeat split; reflexivity. Qed.
